(** * split-folders: a shallow embedding of [split_folder/split.py]

    The program partitions a labelled image dataset (one directory per
    class) into train / val / test subsets and materialises the
    partition by copying or moving files.  This development embeds the
    Python functions of [split.py] as Rocq functions and states the
    properties of the specification against them.

    Conventions of the embedding:
    - a Python [int] is a [Z]; a list or tuple of ints is a [list Z];
    - a Python [float] is an IEEE-754 binary64 value, a [spec_float] with
      the operations of [SpecFloat] at precision 53 and [emax] 1024;
    - a path is the text of the path (a [string], POSIX separator).  The
      class directories that [list_dirs] returns are [pathlib.Path]
      objects and the files that [list_files] returns are [str]: where
      the program reads an attribute that a [str] does not have, the
      embedding raises what Python raises; the [pathlib] attributes
      read on a [Path] ([name], [stem]) are computed from its text;
    - an element of a [files] list is either a single path or a tuple of
      paths (a group);
    - a raised exception is a value of [exn]; functions that can raise
      return a [result];
    - the file system, the state of the module-level random generator,
      the sequence of [shutil] calls and the one choice the thread pool
      leaves open form an explicit [world] that is threaded through the
      stateful functions;
    - the generator behind [random.seed] / [random.shuffle] /
      [random.choice] (the Mersenne Twister of the Python runtime) is a
      parameter: a structure [rng] giving [seed] and [randbelow]. *)

From Stdlib Require Import ZArith Lia Ascii String List Sorted Permutation.
From Corelib Require Import SpecFloat.
From stdpp Require Import base list strings sorting gmap.

Open Scope Z_scope.

(** ** Exceptions and results *)

Inductive exn :=
  | AssertionError
  | ValueError (msg : string)
  | OverflowError      (* [int(x)] for an infinite [x] *)
  | NanToIntError      (* [int(x)] for a NaN (a [ValueError] in Python) *)
  | AttributeError (msg : string)
  | IndexError (msg : string)
  | EmptyMaxError      (* [max([])] (a [ValueError] in Python) *)
  | ShutilError (msg : string)
  | TypeError (msg : string)
  | FileNotFoundError (p : string)
  | NotADirectoryError (p : string).

Inductive result (A : Type) :=
  | Ok (a : A)
  | Raise (e : exn).
Arguments Ok {A} a.
Arguments Raise {A} e.

Definition is_ok {A} (r : result A) : bool :=
  match r with Ok _ => true | Raise _ => false end.

(** ** Python sequences *)

Module Py.

(** A slice bound [i] on a sequence of length [n]: a negative bound
    counts from the end, and every bound is clamped to [0..n]. *)
Definition bound (n : nat) (i : Z) : nat :=
  if i <? 0 then Z.to_nat (Z.max 0 (Z.of_nat n + i))
  else Z.to_nat (Z.min i (Z.of_nat n)).

(** [l[:hi]], [l[lo:]] and [l[lo:hi]]. *)
Definition slice_to {A} (l : list A) (hi : Z) : list A :=
  take (bound (length l) hi) l.
Definition slice_from {A} (l : list A) (lo : Z) : list A :=
  drop (bound (length l) lo) l.
Definition slice {A} (l : list A) (lo hi : Z) : list A :=
  drop (bound (length l) lo) (take (bound (length l) hi) l).

(** [sum] of a sequence of ints. *)
Definition sum (l : list Z) : Z := fold_left Z.add l 0.

(** [max] of a sequence of ints. *)
Definition max (l : list Z) : result Z :=
  match l with
  | [] => Raise EmptyMaxError
  | x :: l' => Ok (fold_left Z.max l' x)
  end.

(** [str(i)] for an int. *)
Definition digit (n : nat) : ascii := ascii_of_nat (48 + n).

Fixpoint str_pos_aux (fuel : nat) (n : N) (acc : string) : string :=
  match fuel with
  | O => acc
  | S fuel' =>
      let acc' := String (digit (N.to_nat (n mod 10))) acc in
      if (n / 10 =? 0)%N then acc' else str_pos_aux fuel' (n / 10)%N acc'
  end.

Definition str_N (n : N) : string :=
  str_pos_aux (S (N.to_nat (N.log2 n))) n "".

Definition str (z : Z) : string :=
  match z with
  | Zneg p => "-" +:+ str_N (Npos p)
  | _ => str_N (Z.to_N z)
  end.

(** [range(n)]. *)
Definition range (n : Z) : list Z := Z.of_nat <$> seq 0 (Z.to_nat n).

(** [repr] of a list and of a tuple of ints. *)
Fixpoint join_comma (l : list Z) : string :=
  match l with
  | [] => ""
  | [x] => str x
  | x :: l' => str x +:+ ", " +:+ join_comma l'
  end.

Definition repr_list (l : list Z) : string := "[" +:+ join_comma l +:+ "]".

Definition repr_tuple (l : list Z) : string :=
  match l with
  | [x] => "(" +:+ str x +:+ ",)"
  | _ => "(" +:+ join_comma l +:+ ")"
  end.

(** The double-quote character. *)
Definition dquote : string := String (ascii_of_nat 34) "".

(** [s[:-1]] on a string. *)
Fixpoint drop_last (s : string) : string :=
  match s with
  | "" => ""
  | String c "" => ""
  | String c s' => String c (drop_last s')
  end.

(** [s.startswith(p)]. *)
Definition startswith (s p : string) : bool := String.prefix p s.

(** [s.endswith(p)]. *)
Definition endswith (s p : string) : bool :=
  String.eqb (String.substring (String.length s - String.length p)
                (String.length p) s) p
  && (String.length p <=? String.length s)%nat.

(** [s.lower()], on the letters A to Z. *)
Definition lower_char (a : ascii) : ascii :=
  let n := nat_of_ascii a in
  if (65 <=? n)%nat && (n <=? 90)%nat then ascii_of_nat (n + 32) else a.

Fixpoint lower (s : string) : string :=
  match s with
  | EmptyString => EmptyString
  | String a s' => String (lower_char a) (lower s')
  end.

(** [s.split(sep, 1)[-1]]: the text after the first occurrence of
    [sep], or all of [s] when [sep] does not occur. *)
Fixpoint string_drop (n : nat) (s : string) : string :=
  match n, s with
  | O, _ => s
  | S n', String _ s' => string_drop n' s'
  | S _, "" => ""
  end.

Fixpoint after_first (sep s : string) : option string :=
  if String.prefix sep s then Some (string_drop (String.length sep) s)
  else match s with
       | "" => None
       | String _ s' => after_first sep s'
       end.

Definition split1_last (s sep : string) : string :=
  match after_first sep s with
  | Some r => r
  | None => s
  end.

End Py.

(** ** Python floats: IEEE-754 binary64 *)

Module PyFloat.

Definition prec : Z := 53.
Definition emax : Z := 1024.

Abbreviation float := spec_float.

Definition zero : float := S754_zero false.

(** Conversion of an int operand in mixed arithmetic ([r * len(files)]):
    the nearest binary64, ties to even. *)
Definition of_int (z : Z) : float := binary_normalize prec emax z 0 false.

Definition mul : float -> float -> float := SFmul prec emax.
Definition add : float -> float -> float := SFadd prec emax.
Definition div : float -> float -> float := SFdiv prec emax.

(** The float denoted by a decimal literal with value [num / den]
    (as [0.8] is [literal 8 10]): the nearest binary64. *)
Definition literal (num den : Z) : float := div (of_int num) (of_int den).

(** The integer part of the magnitude [m * 2^e]. *)
Definition magnitude (m : positive) (e : Z) : Z :=
  match e with
  | Zneg p => Z.pos m / 2 ^ Z.pos p
  | _ => Z.pos m * 2 ^ e
  end.

(** [int(x)]: truncation towards zero; raises on infinities and NaN. *)
Definition to_int (x : float) : result Z :=
  match x with
  | S754_zero _ => Ok 0
  | S754_finite s m e => Ok (cond_Zopp s (magnitude m e))
  | S754_infinity _ => Raise OverflowError
  | S754_nan => Raise NanToIntError
  end.

(** [math.floor(x)]: the largest integer not above [x]. *)
Definition floor (x : float) : result Z :=
  match x with
  | S754_zero _ => Ok 0
  | S754_finite s m e =>
      Ok (match e with
          | Zneg p => cond_Zopp s (Z.pos m) / 2 ^ Z.pos p
          | _ => cond_Zopp s (Z.pos m) * 2 ^ e
          end)
  | S754_infinity _ => Raise OverflowError
  | S754_nan => Raise NanToIntError
  end.

(** [0 <= x]. *)
Definition nonneg (x : float) : bool := SFleb zero x.

Definition is_finite (x : float) : bool :=
  match x with
  | S754_zero _ | S754_finite _ _ _ => true
  | _ => false
  end.

(** A binary64 value in the range [0 .. 2]: what an element of a
    ratio tuple can be, with room for the tolerance of the sum. *)
Definition is_fraction (r : float) : bool :=
  valid_binary prec emax r && nonneg r && SFleb r (of_int 2).

(** [sum(l)] of a sequence of floats: the int [0] plus the elements,
    accumulated left to right in binary64. *)
Definition sum (l : list float) : float := fold_left add l zero.

(** [round(x, 5) == 1]: the decimal rounding of [x] to five places is
    [1.00000], that is [0.999995 <= x <= 1.000005] on the exact value
    of [x] (neither end point is a binary64, so the tie rule never
    applies). *)
Definition round5_is_one (x : float) : bool :=
  match x with
  | S754_finite false m e =>
      let num := 200000 * Z.pos m * 2 ^ Z.max e 0 in
      let den := 2 ^ Z.max (- e) 0 in
      (199999 * den <=? num) && (num <=? 200001 * den)
  | _ => false
  end.

End PyFloat.

(** ** Paths *)

Module Path.

Definition path := string.

Definition sep : ascii := "/"%char.
Definition dot : ascii := "."%char.

Fixpoint mem_char (c : ascii) (s : string) : bool :=
  match s with
  | "" => false
  | String a s' => Ascii.eqb a c || mem_char c s'
  end.

(** [(s[:i+1], s[i+1:])] for [i = s.rfind(c)]; [("", s)] when [c] does
    not occur in [s]. *)
Fixpoint rpartition (c : ascii) (s : string) : string * string :=
  match s with
  | "" => ("", "")
  | String a s' =>
      if mem_char c s' then
        let '(h, t) := rpartition c s' in (String a h, t)
      else if Ascii.eqb a c then (String a "", s')
      else ("", s)
  end.

Fixpoint all_sep (s : string) : bool :=
  match s with
  | "" => true
  | String a s' => Ascii.eqb a sep && all_sep s'
  end.

(** [s.rstrip("/")]. *)
Fixpoint rstrip_sep (s : string) : string :=
  match s with
  | "" => ""
  | String a s' =>
      match rstrip_sep s' with
      | "" => if Ascii.eqb a sep then "" else String a ""
      | r => String a r
      end
  end.

(** [os.path.split(p)]. *)
Definition split (p : path) : path * string :=
  let '(head, tail) := rpartition sep p in
  let head' :=
    if negb (String.eqb head "") && negb (all_sep head)
    then rstrip_sep head else head in
  (head', tail).

Definition basename (p : path) : string := snd (rpartition sep p).
Definition dirname (p : path) : path := fst (split p).

Fixpoint last_char (s : string) : option ascii :=
  match s with
  | "" => None
  | String a "" => Some a
  | String _ s' => last_char s'
  end.

Definition ends_with_sep (s : string) : bool :=
  match last_char s with
  | Some a => Ascii.eqb a sep
  | None => false
  end.

(** [os.path.join(a, b)]. *)
Definition join (a b : path) : path :=
  if Py.startswith b "/" then b
  else if String.eqb a "" || ends_with_sep a then a +:+ b
  else a +:+ "/" +:+ b.

(** [os.path.join(a, b, c)]. *)
Definition join3 (a b c : path) : path := join (join a b) c.

(** [pathlib]: [p.name], [p.suffix], [p.stem], [p.with_name(n)]. *)
Definition name (p : path) : string := basename p.

Definition has_suffix (nm : string) : bool :=
  let '(h, t) := rpartition dot nm in
  negb (String.eqb (Py.drop_last h) "") && negb (String.eqb t "").

Definition suffix (p : path) : string :=
  let nm := name p in
  if has_suffix nm then String dot (snd (rpartition dot nm)) else "".

Definition stem (p : path) : string :=
  let nm := name p in
  if has_suffix nm then Py.drop_last (fst (rpartition dot nm)) else nm.

(** [pathlib.PurePosixPath(s)], as [str] shows it: the components
    between separators without the empty ones and the [.] ones, behind
    the root ([/], or [//] for exactly two leading separators); [.]
    when nothing is left. *)
Fixpoint components_from (s cur : string) : list string :=
  match s with
  | EmptyString => [cur]
  | String a s' =>
      if Ascii.eqb a sep then cur :: components_from s' EmptyString
      else components_from s' (cur +:+ String a EmptyString)
  end.

Fixpoint leading_seps (s : string) : nat :=
  match s with
  | String a s' => if Ascii.eqb a sep then S (leading_seps s') else 0%nat
  | EmptyString => 0%nat
  end.

Fixpoint join_parts (parts : list string) : string :=
  match parts with
  | [] => EmptyString
  | [c] => c
  | c :: parts' => c +:+ "/" +:+ join_parts parts'
  end.

Definition pure (s : string) : path :=
  let parts := filter (fun c => c ≠ EmptyString ∧ c ≠ ".")
                      (components_from s EmptyString) in
  let root := match leading_seps s with
              | 0%nat => EmptyString
              | 2%nat => "//"
              | _ => "/"
              end in
  match root, parts with
  | EmptyString, [] => "."
  | _, _ => root +:+ join_parts parts
  end.

End Path.

(** ** The random generator

    [random.seed(a)] and [Random._randbelow(n)] of the Python runtime.
    [_randbelow(n)] returns an int in [range(n)] for a positive [n]. *)

Record rng := Rng {
  rng_state : Type;
  rng_seed : Z -> rng_state;
  rng_below : nat -> rng_state -> nat * rng_state;
  rng_below_lt : forall n st, (0 < n)%nat -> (fst (rng_below n st) < n)%nat
}.

(** ** Entries, plans, the world *)

Abbreviation path := Path.path.

(** An element of a [files] list: a path (a [str] of [list_files]), or
    a tuple of paths as [group_by_prefix] makes them. *)
Inductive entry :=
  | Single (p : path)
  | Tuple (ps : list path).

Global Instance entry_eq_dec : EqDecision entry.
Proof. solve_decision. Defined.

(** The paths an entry stands for. *)
Definition members (e : entry) : list path :=
  match e with
  | Single p => [p]
  | Tuple ps => ps
  end.

(** The list [li] built by [split_files]: pairs [(files, folder_type)]. *)
Definition plan := list (list entry * string).

(** Calls of the [shutil] / [os] primitives that change the file system,
    with the destination they resolved to. *)
Inductive action :=
  | Mkdir (d : path)
  | Copy2 (src dst : path)
  | Move (src dst : path).

Global Instance action_eq_dec : EqDecision action.
Proof. solve_decision. Defined.

Section Program.

Context (R : rng).

(** The directories and files present (in directory-iteration order),
    the state of the module-level generator, the calls made, and the
    one number the thread pool leaves open: how many further jobs its
    worker starts after a job has raised, before the jobs still pending
    are cancelled.  (An exception of a job ends the run, so one number
    per run is enough.) *)
Record world := World {
  w_dirs : list path;
  w_files : list path;
  w_rng : rng_state R;
  w_trace : list action;
  w_late : nat
}.

(** *** A state and exception monad over the world *)

Definition M (A : Type) : Type := world -> result A * world.

Definition ret {A} (a : A) : M A := fun w => (Ok a, w).

Definition raise {A} (e : exn) : M A := fun w => (Raise e, w).

Definition bind {A B} (m : M A) (k : A -> M B) : M B :=
  fun w =>
    match m w with
    | (Ok a, w') => k a w'
    | (Raise e, w') => (Raise e, w')
    end.

Definition lift {A} (r : result A) : M A := fun w => (r, w).

Notation "'let*' x ':=' m 'in' k" := (bind m (fun x => k))
  (at level 10, x name, m at level 100, k at level 200).
Notation "'do' m 'then' k" := (bind m (fun _ => k))
  (at level 10, m at level 100, k at level 200).

(** [for x in l: body(x)]. *)
Fixpoint for_each {A} (l : list A) (body : A -> M unit) : M unit :=
  match l with
  | [] => ret tt
  | x :: l' => do body x then for_each l' body
  end.

(** *** The file system *)

Definition isdir (d : path) (w : world) : bool := bool_decide (d ∈ w_dirs w).
Definition isfile (f : path) (w : world) : bool := bool_decide (f ∈ w_files w).

Definition log (a : action) (w : world) : world :=
  World (w_dirs w) (w_files w) (w_rng w) (w_trace w ++ [a]) (w_late w).

(** The directory [d] and its ancestors, outermost first. *)
Fixpoint ancestors (fuel : nat) (d : path) : list path :=
  match fuel with
  | O => []
  | S fuel' =>
      if String.eqb d "" || Path.all_sep d then []
      else ancestors fuel' (Path.dirname d) ++ [d]
  end.

Definition add_dirs (ds : list path) (w : world) : world :=
  World (w_dirs w ++ filter (fun d => d ∉ w_dirs w) ds)
        (w_files w) (w_rng w) (w_trace w) (w_late w).

(** [pathlib.Path(d).mkdir(parents=True, exist_ok=True)] and
    [os.makedirs(d, exist_ok=True)]. *)
Definition makedirs (d : path) : M unit :=
  fun w => (Ok tt, log (Mkdir d) (add_dirs (ancestors (String.length d) d) w)).

Definition add_file (f : path) (w : world) : world :=
  World (w_dirs w)
        (if isfile f w then w_files w else w_files w ++ [f])
        (w_rng w) (w_trace w) (w_late w).

Definition remove_file (f : path) (w : world) : world :=
  World (w_dirs w) (filter (fun x => x ≠ f) (w_files w)) (w_rng w) (w_trace w)
        (w_late w).

(** [shutil.copy2(src, dst)]: into [dst] when it is a directory, onto
    [dst] otherwise (an existing file is overwritten).  The directory
    of the destination is in place at every call of this program: it
    was created just before. *)
Definition copy2 (src dst : path) : M unit :=
  fun w =>
    let dst' := if isdir dst w then Path.join dst (Path.basename src) else dst in
    if negb (isfile src w) then
      (Raise (ShutilError ("No such file: " +:+ src)), w)
    else if String.eqb src dst' then
      (Raise (ShutilError (src +:+ " and " +:+ dst' +:+ " are the same file")), w)
    else (Ok tt, log (Copy2 src dst') (add_file dst' w)).

(** [shutil.move(src, dst)]: into [dst] when it is a directory; an
    existing destination there is an error. *)
Definition move (src dst : path) : M unit :=
  fun w =>
    if isdir dst w then
      let dst' := Path.join dst (Path.basename src) in
      if isfile dst' w || isdir dst' w then
        (Raise (ShutilError ("Destination path '" +:+ dst' +:+ "' already exists")), w)
      else if negb (isfile src w) then
        (Raise (ShutilError ("No such file: " +:+ src)), w)
      else (Ok tt, log (Move src dst') (add_file dst' (remove_file src w)))
    else
      if negb (isfile src w) then
        (Raise (ShutilError ("No such file: " +:+ src)), w)
      else (Ok tt, log (Move src dst) (add_file dst (remove_file src w))).

(** [list_dirs(directory)]:
    [[f for f in pathlib.Path(directory).iterdir() if f.is_dir()]].
    [pathlib] reads the argument ([Path.pure]), [iterdir] raises on a
    missing directory and on a file, and the result holds the
    directories directly inside, each a [Path] whose text is the text of
    the directory followed by the name ([.] itself adds nothing to the
    text of its children). *)
Definition list_dirs (directory : path) : M (list path) :=
  fun w =>
    let d := Path.pure directory in
    if isfile d w then (Raise (NotADirectoryError d), w)
    else if negb (String.eqb d "." || isdir d w) then
      (Raise (FileNotFoundError d), w)
    else
      let parent := if String.eqb d "." then EmptyString else d in
      (Ok (filter (fun c => Path.dirname c = parent ∧ Path.basename c ≠ ""
                            ∧ c ≠ ".")
                  (w_dirs w)), w).

(** The extension filter passed to the file-listing collaborator. *)
Definition filter_ext : list string := [".jpg"; ".jpeg"; ".png"].

(** Modelled from the spec: the file-listing collaborator
    [nb_utils.file_dir_handling.list_files], a package outside this
    repository, which accepts a directory and an extension filter and
    returns all matching paths recursively.  A file matches when its
    name, in lower case, ends with one of the extensions; the paths
    come as [str], each the text of the directory followed by the path
    below it, in the order the file system yields them; a directory
    that does not exist has no files. *)
Definition eligible (f : path) : bool :=
  existsb (Py.endswith (Py.lower (Path.basename f))) filter_ext.

Definition listing (directory : path) (w : world) : list path :=
  filter (fun f => Py.startswith f (Path.join directory "") = true
                   ∧ eligible f = true)
         (w_files w).

(** [list_files(directory)]: a list of [str]. *)
Definition list_files (directory : path) : M (list path) :=
  fun w => (Ok (listing directory w), w).

(** *** [random.shuffle] and [random.choice] *)

(** [x[i], x[j] = x[j], x[i]]. *)
Definition swap {A} (i j : nat) (x : list A) : list A :=
  match x !! i, x !! j with
  | Some a, Some b => <[j:=a]> (<[i:=b]> x)
  | _, _ => x
  end.

(** The loop [for i in reversed(range(1, len(x)))] of [shuffle],
    entered at index [i]. *)
Fixpoint shuffle_from {A} (i : nat) (x : list A) (st : rng_state R)
  : list A * rng_state R :=
  match i with
  | O => (x, st)
  | S i' =>
      let '(j, st') := rng_below R (i + 1) st in
      shuffle_from i' (swap i j x) st'
  end.

Definition shuffle {A} (x : list A) : M (list A) :=
  fun w =>
    let '(x', st') := shuffle_from (length x - 1) x (w_rng w) in
    (Ok x', World (w_dirs w) (w_files w) st' (w_trace w) (w_late w)).

(** [random.seed(a)]. *)
Definition seed_rng (a : Z) : M unit :=
  fun w => (Ok tt, World (w_dirs w) (w_files w) (rng_seed R a) (w_trace w)
                      (w_late w)).

(** [random.choice(seq)]. *)
Definition choice {A} (seq : list A) : M A :=
  fun w =>
    match seq with
    | [] => (Raise (IndexError "Cannot choose from an empty sequence"), w)
    | _ =>
        let '(i, st') := rng_below R (length seq) (w_rng w) in
        let w' := World (w_dirs w) (w_files w) st' (w_trace w) (w_late w) in
        match seq !! i with
        | Some a => (Ok a, w')
        | None => (Raise (IndexError "list index out of range"), w')
        end
    end.

(** *** [group_by_prefix] *)

(** The list comprehension [matches] for the file [f] and the
    candidate prefix [f_sub]. *)
Definition matches (files : list path) (results_set : gset string)
    (f : path) (f_sub : string) : list path :=
  filter (fun x => (Path.name x ∉ results_set)
                   ∧ (Py.startswith (Path.name x) f_sub = true)
                   ∧ (Path.name f ≠ Path.name x)) files.

Definition msg_unequal (len_pairs : Z) (f : path) (found : Z) : string :=
  "The length of pairs has to be equal. Coudn't find "
    +:+ Py.str (len_pairs - 1) +:+ " matches for " +:+ f
    +:+ ". Found " +:+ Py.str found +:+ " matches.".

Definition msg_no_adequate (f : path) : string :=
  "No adequate matches found for " +:+ f +:+ ".".

Definition msg_not_enough (grouped total : Z) : string :=
  "Could not find enough matches (" +:+ Py.str grouped
    +:+ ") for all files (" +:+ Py.str total +:+ ")".

(** The inner loop [for _ in range(len(f_sub))] with its [else]
    clause; [n] iterations remain. *)
Fixpoint find_matches (files : list path) (len_pairs : Z)
    (results_set : gset string) (f : path) (n : nat) (f_sub : string)
  : result (list path) :=
  match n with
  | O => Raise (ValueError (msg_no_adequate f))
  | S n' =>
      let ms := matches files results_set f f_sub in
      if Z.of_nat (length ms) =? len_pairs - 1 then Ok ms
      else if (Z.of_nat (length ms) <? len_pairs - 1) then
        find_matches files len_pairs results_set f n' (Py.drop_last f_sub)
      else Raise (ValueError (msg_unequal len_pairs f (Z.of_nat (length ms))))
  end.

(** The outer loop [for f in files], over the files still to visit. *)
Fixpoint group_loop (files : list path) (len_pairs : Z)
    (todo : list path) (results : list (list path))
    (results_set : gset string)
  : result (list (list path) * gset string) :=
  match todo with
  | [] => Ok (results, results_set)
  | f :: todo' =>
      if decide (Path.name f ∈ results_set) then
        group_loop files len_pairs todo' results results_set
      else
        match find_matches files len_pairs results_set f
                (String.length (Path.name f)) (Path.name f) with
        | Ok ms =>
            group_loop files len_pairs todo'
              (results ++ [f :: ms])
              (results_set ∪ list_to_set (Path.name f :: (Path.name <$> ms)))
        | Raise e => Raise e
        end
  end.

Definition group_by_prefix (files : list path) (len_pairs : Z)
  : result (list (list path)) :=
  match group_loop files len_pairs files [] ∅ with
  | Ok (results, results_set) =>
      if decide (size results_set ≠ length files) then
        Raise (ValueError (msg_not_enough (Z.of_nat (size results_set))
                                          (Z.of_nat (length files))))
      else Ok results
  | Raise e => Raise e
  end.

(** *** [setup_files] *)

(** The order of [list.sort()] on tuples of paths: lexicographic. *)
Fixpoint tuple_leb (a b : list path) : bool :=
  match a, b with
  | [], _ => true
  | _ :: _, [] => false
  | x :: a', y :: b' =>
      if String.eqb x y then tuple_leb a' b' else String.leb x y
  end.

Definition tuple_le (a b : list path) : Prop := tuple_leb a b = true.

Global Instance tuple_le_dec : RelDecision tuple_le.
Proof. intros a b. unfold tuple_le. apply _. Defined.

(** [files.sort()]: on a list of paths, and on a list of tuples. *)
Definition sort_paths (files : list path) : list path :=
  merge_sort String.le files.

Definition sort_groups (groups : list (list path)) : list (list path) :=
  merge_sort tuple_le groups.

(** [group_by_prefix(files, len_pairs)] on a list of [str], which is
    what [list_files] returns.  The loop reads [f.name] of the first
    element, and a [str] has no such attribute; on the empty list the
    loop body never runs. *)
Definition group_by_prefix_str (files : list string) (len_pairs : Z)
  : result (list (list path)) :=
  match files with
  | [] => group_by_prefix [] len_pairs
  | _ :: _ => Raise (AttributeError "'str' object has no attribute 'name'")
  end.

(** [setup_files(class_dir, seed, group_prefix)].  The one call
    [files.sort()] of the source is written once per branch, as the
    list holds paths in one branch and tuples in the other. *)
Definition setup_files (class_dir : path) (seed : Z)
    (group_prefix : option Z) : M (list entry) :=
  do seed_rng seed then
  let* files := list_files class_dir in
  match group_prefix with
  | None => shuffle (Single <$> sort_paths files)
  | Some k =>
      let* groups := lift (group_by_prefix_str files k) in
      shuffle (Tuple <$> sort_groups groups)
  end.

(** *** [split_files] *)

Definition split_files (files : list entry)
    (split_train_idx split_val_idx : Z) (use_test : bool) : plan :=
  let files_train := Py.slice_to files split_train_idx in
  let files_val :=
    if use_test then Py.slice files split_train_idx split_val_idx
    else Py.slice_from files split_train_idx in
  let li := [(files_train, "train"); (files_val, "val")] in
  if use_test then li ++ [(Py.slice_from files split_val_idx, "test")]
  else li.

(** *** [copy_files] and [move_files] *)

(** [files.remove(f)]: the first element equal to [f] is removed. *)
Fixpoint list_remove (f : entry) (files : list entry) : list entry :=
  match files with
  | [] => []
  | x :: files' => if decide (x = f) then files' else x :: list_remove f files'
  end.

(** The loop [for f in files: if type(f) == tuple: ...; files.remove(f)].
    The list iterator reads [files[i]] for i = 0, 1, ... and stops
    when [i] reaches the current length; the body removes from the
    list that is being iterated.  [transfer x] is the call made for
    each member of a tuple.  The result is the list left in [files]. *)
Fixpoint tuple_loop (fuel : nat) (transfer : path -> M unit)
    (i : nat) (files : list entry) : M (list entry) :=
  match fuel with
  | O => ret files
  | S fuel' =>
      match files !! i with
      | None => ret files
      | Some (Tuple xs) =>
          do for_each xs transfer then
          tuple_loop fuel' transfer (i + 1) (list_remove (Tuple xs) files)
      | Some (Single _) => tuple_loop fuel' transfer (i + 1) files
      end
  end.

(** The worker [_copy(f, class_name, full_path)]; [f.split] exists on
    a string only. *)
Definition _copy (f : entry) (class_name : string) (full_path : path)
  : M unit :=
  match f with
  | Tuple _ => raise (AttributeError "'tuple' object has no attribute 'split'")
  | Single f =>
      let class_name_with_separator := "/" +:+ class_name +:+ "/" in
      let file_relative_path := Py.split1_last f class_name_with_separator in
      if negb (String.eqb file_relative_path "") then
        let dest_path := Path.join full_path file_relative_path in
        do makedirs (Path.dirname dest_path) then
        copy2 f dest_path
      else copy2 f full_path
  end.

(** The worker [_move(f, full_path)].  On a tuple, [shutil.move]
    raises [TypeError]: from [os.stat] (through [os.path.samefile])
    when the destination is a directory, from [os.rename] otherwise. *)
Definition _move (f : entry) (full_path : path) : M unit :=
  match f with
  | Tuple _ =>
      fun w =>
        if isdir full_path w then
          (Raise (TypeError "stat: path should be string, bytes, os.PathLike or integer, not tuple"), w)
        else
          (Raise (TypeError "rename: src should be string, bytes or os.PathLike, not tuple"), w)
  | Single f => move f full_path
  end.

(** [thread_map(worker, jobs, max_workers=...)]: every job is
    submitted to the pool and the results are read in order.  The jobs
    run one after another in the order of the list (the schedule of a
    pool with one worker).  When a job raises, its exception is the one
    the call raises, once the main thread reads it; until then the
    worker goes on with the jobs that follow, [w_late] of them at most,
    and what these raise stays in their futures, unread. *)
Fixpoint run_late (n : nat) (worker : entry -> M unit) (jobs : list entry)
    (w : world) : world :=
  match n, jobs with
  | S n', j :: jobs' => run_late n' worker jobs' (snd (worker j w))
  | _, _ => w
  end.

Fixpoint run_jobs (worker : entry -> M unit) (jobs : list entry) : M unit :=
  match jobs with
  | [] => ret tt
  | j :: jobs' =>
      fun w =>
        match worker j w with
        | (Ok _, w') => run_jobs worker jobs' w'
        | (Raise e, w') => (Raise e, run_late (w_late w') worker jobs' w')
        end
  end.

Definition thread_map (worker : entry -> M unit) (jobs : list entry)
    (max_workers : nat) : M unit :=
  run_jobs worker jobs.

Definition copy_files (files_type : plan) (class_dir output : path)
    (max_workers : nat) : M unit :=
  let class_name := snd (Path.split class_dir) in
  for_each files_type (fun '(files, folder_type) =>
    let full_path := Path.join3 output folder_type class_name in
    do makedirs full_path then
    let* files := tuple_loop (length files)
                    (fun x => copy2 x full_path) 0 files in
    thread_map (fun f => _copy f class_name full_path) files 1).

Definition move_files (files_type : plan) (class_dir output : path)
    (max_workers : nat) : M unit :=
  let class_name := snd (Path.split class_dir) in
  for_each files_type (fun '(files, folder_type) =>
    let full_path := Path.join3 output folder_type class_name in
    do makedirs full_path then
    let* files := tuple_loop (length files)
                    (fun x => move x full_path) 0 files in
    thread_map (fun f => _move f full_path) files max_workers).

(** *** Ratio mode *)

(** [seq[i]] on a Python sequence. *)
Definition index {A} (l : list A) (i : nat) : result A :=
  match l !! i with
  | Some a => Ok a
  | None => Raise (IndexError "index out of range")
  end.

Definition result_bind {A B} (r : result A) (k : A -> result B) : result B :=
  match r with
  | Ok a => k a
  | Raise e => Raise e
  end.

(** [int(ratio[i] * len(files))]. *)
Definition ratio_count (ratio : list PyFloat.float) (i : nat) (n : nat)
  : result Z :=
  result_bind (index ratio i) (fun r =>
    PyFloat.to_int (PyFloat.mul r (PyFloat.of_int (Z.of_nat n)))).

(** The two indices and the list [li] of [split_class_dir_ratio]. *)
Definition ratio_plan (files : list entry) (ratio : list PyFloat.float)
  : result plan :=
  result_bind (ratio_count ratio 0 (length files)) (fun split_train_idx =>
  result_bind (ratio_count ratio 1 (length files)) (fun n_val =>
    let split_val_idx := split_train_idx + n_val in
    Ok (split_files files split_train_idx split_val_idx
          (bool_decide (length ratio = 3%nat))))).

Definition split_class_dir_ratio (class_dir output : path)
    (ratio : list PyFloat.float) (seed : Z) (move : bool)
    (max_workers : nat) (group_prefix : option Z) : M unit :=
  let* files := setup_files class_dir seed group_prefix in
  let* li := lift (ratio_plan files ratio) in
  if move then move_files li class_dir output max_workers
  else copy_files li class_dir output max_workers.

Definition ratio (input output : path) (seed : Z)
    (ratio : list PyFloat.float) (move : bool) (max_workers : nat)
    (group_prefix : option Z) : M unit :=
  if negb (PyFloat.round5_is_one (PyFloat.sum ratio)) then raise AssertionError
  else if negb (bool_decide (length ratio = 2%nat ∨ length ratio = 3%nat))
  then raise AssertionError
  else
    let* dirs := list_dirs input in
    for_each dirs (fun class_dir =>
      split_class_dir_ratio class_dir output ratio seed move max_workers
        group_prefix).

(** *** Fixed mode *)

(** The value of the parameter [fixed]: an int, a tuple or a list. *)
Inductive seq_kind := PyTuple | PyList.

Inductive fixed_arg :=
  | FixedInt (i : Z)
  | FixedSeq (kind : seq_kind) (l : list Z).

Definition repr_fixed (kind : seq_kind) (l : list Z) : string :=
  match kind with
  | PyTuple => Py.repr_tuple l
  | PyList => Py.repr_list l
  end.

Definition msg_too_few (class_dir : path) (available : Z)
    (fixed_repr : string) (required : Z) : string :=
  "The number of samples in class " +:+ Py.dquote +:+ Path.stem class_dir
    +:+ Py.dquote +:+ " are too few. There are only " +:+ Py.str available
    +:+ " samples available but your fixed parameter " +:+ fixed_repr
    +:+ " requires at least " +:+ Py.str required
    +:+ " files. You may want to split your classes by ratio.".

(** The check, the two indices and the list [li] of
    [split_class_dir_fixed]. *)
Definition fixed_plan (class_dir : path) (files : list entry)
    (kind : seq_kind) (fixed : list Z) : result plan :=
  let n := Z.of_nat (length files) in
  if negb (n >? Py.sum fixed) then
    Raise (ValueError (msg_too_few class_dir n (repr_fixed kind fixed)
                         (Py.sum fixed)))
  else
    let split_train_idx := n - Py.sum fixed in
    result_bind (index fixed 0) (fun fixed0 =>
      let split_val_idx := split_train_idx + fixed0 in
      Ok (split_files files split_train_idx split_val_idx
            (bool_decide (length fixed = 2%nat)))).

Definition split_class_dir_fixed (class_dir output : path)
    (kind : seq_kind) (fixed : list Z) (seed : Z) (prog_bar : nat)
    (group_prefix : option Z) : M Z :=
  let* files := setup_files class_dir seed group_prefix in
  let* li := lift (fixed_plan class_dir files kind fixed) in
  do copy_files li class_dir output prog_bar then
  ret (Z.of_nat (length files)).

(** The loop [for class_dir in dirs: lens.append(...)]. *)
Fixpoint collect_lens (dirs : list path) (body : path -> M Z) : M (list Z) :=
  match dirs with
  | [] => ret []
  | class_dir :: dirs' =>
      let* n := body class_dir in
      let* lens := collect_lens dirs' body in
      ret (n :: lens)
  end.

(** One duplication: the body of [for i in range(max_len - length)].
    [f_orig] is an element of what [list_files] returned, a [str];
    after the draw, [f_orig.stem] is read first and raises, so
    [with_name] and [shutil.copy2] are not reached. *)
Definition duplicate (train_files : list string) (i : Z) : M unit :=
  let* f_orig := choice train_files in
  raise (AttributeError "'str' object has no attribute 'stem'").

(** The body of [for length, class_dir in iteration]. *)
Definition oversample_class (output : path) (max_len : Z)
    (length_dir : Z * path) : M unit :=
  let '(length, class_dir) := length_dir in
  let class_name := snd (Path.split class_dir) in
  let full_path := Path.join3 output "train" class_name in
  let* train_files := list_files full_path in
  for_each (Py.range (max_len - length)) (duplicate train_files).

Definition fixed (input output : path) (seed : Z) (fixed : fixed_arg)
    (oversample : bool) (group_prefix : option Z) : M unit :=
  let '(kind, fixed) :=
    match fixed with
    | FixedInt i => (PyList, [i])
    | FixedSeq kind l => (kind, l)
    end in
  if negb (bool_decide (length fixed = 1%nat ∨ length fixed = 2%nat))
  then raise AssertionError
  else
    let* dirs := list_dirs input in
    let* lens := collect_lens dirs (fun class_dir =>
                   split_class_dir_fixed class_dir output kind fixed seed 0
                     group_prefix) in
    if negb oversample then ret tt
    else
      let* max_len := lift (Py.max lens) in
      for_each (zip lens dirs) (oversample_class output max_len).

End Program.

Arguments World {R} _ _ _ _ _.
Arguments w_dirs {R} _.
Arguments w_files {R} _.
Arguments w_rng {R} _.
Arguments w_trace {R} _.
Arguments w_late {R} _.

(** ** A concrete generator for running the program

    A linear congruential generator: enough to execute the embedding on
    concrete datasets. *)

Definition lcg_next (st : N) : N := ((1103515245 * st + 12345) mod 2147483648)%N.

Definition lcg_below (n : nat) (st : N) : nat * N :=
  (N.to_nat ((lcg_next st / 65536) mod N.of_nat n)%N, lcg_next st).

Definition lcg : rng.
Proof.
  refine (Rng N (fun a => Z.to_N (a mod 2147483648)) lcg_below _).
  abstract (intros n st Hn; unfold lcg_below; cbn [fst];
            assert (H : ((lcg_next st / 65536) mod N.of_nat n < N.of_nat n)%N)
              by (apply N.mod_lt; lia);
            lia).
Defined.

(** A dataset: the class directories [classes] below [input], each
    with the given file names; nothing has been transferred yet. *)
Definition dataset (R : rng) (input : path)
    (classes : list (string * list string)) : world R :=
  World
    (input :: map (fun c => Path.join input (fst c)) classes)
    (flat_map (fun c => map (fun f => Path.join (Path.join input (fst c)) f)
                          (snd c)) classes)
    (rng_seed R 0)
    []
    0.
(** ** Vocabulary of the specification *)

(** The entries of [l] at the positions [lo <= i < hi]. *)
Definition segment {A} (l : list A) (lo hi : nat) : list A :=
  drop lo (take hi l).

(** The list [li] of [split_files] as the specification describes it:
    train = [0, train_end), val = [train_end, val_end) and
    test = [val_end, N) with a test subset; val = [train_end, N)
    without. *)
Definition plan_of_bounds (files : list entry) (train_end val_end : nat)
    (use_test : bool) : plan :=
  if use_test then
    [(segment files 0 train_end, "train");
     (segment files train_end val_end, "val");
     (segment files val_end (length files), "test")]
  else
    [(segment files 0 train_end, "train");
     (segment files train_end (length files), "val")].


(** Two outcomes that differ at most in how the parameter [fixed] is
    rendered inside the insufficient-samples message. *)
Definition same_up_to_repr {A} (k1 k2 : seq_kind) (l : list Z)
    (r1 r2 : result A) : Prop :=
  match r1, r2 with
  | Ok a, Ok b => a = b
  | Raise e1, Raise e2 =>
      e1 = e2 \/
      exists class_dir n required,
        e1 = ValueError (msg_too_few class_dir n (repr_fixed k1 l) required)
        /\ e2 = ValueError (msg_too_few class_dir n (repr_fixed k2 l) required)
  | _, _ => False
  end.

Definition same_run {R A} (k1 k2 : seq_kind) (l : list Z)
    (o1 o2 : result A * world R) : Prop :=
  same_up_to_repr k1 k2 l (fst o1) (fst o2) /\ snd o1 = snd o2.


(** What holds of [results] and [results_set] throughout the outer loop
    of [group_by_prefix]. *)
Definition loop_inv (files : list path) (len_pairs : Z)
    (results : list (list path)) (rs : gset string) : Prop :=
  (forall nm, nm ∈ rs <-> nm ∈ (Path.name <$> concat results))
  /\ Forall (fun g => Z.of_nat (length g) = len_pairs) results
  /\ (forall x, x ∈ concat results -> x ∈ files)
  /\ (NoDup (Path.name <$> files) -> NoDup (Path.name <$> concat results)).

(** The plan of one class in ratio mode, in the world [w]. *)
Definition class_plan (R : rng) (class_dir : path) (seed : Z)
    (ratio : list PyFloat.float) (group_prefix : option Z) (w : world R)
  : result plan :=
  match fst (setup_files R class_dir seed group_prefix w) with
  | Ok files => ratio_plan files ratio
  | Raise e => Raise e
  end.


(** The elements of a list at the even positions 0, 2, 4, ... and at
    the odd positions 1, 3, 5, ... *)
Fixpoint evens {A} (l : list A) : list A :=
  match l with
  | x :: _ :: l' => x :: evens l'
  | _ => l
  end.

Fixpoint odds {A} (l : list A) : list A :=
  match l with
  | _ :: y :: l' => y :: odds l'
  | _ => []
  end.

(** A run from [w] to [w'] that only creates: every directory and
    every file of [w] is still there in [w'], and the calls logged in
    between are [mkdir] and [copy2] calls, no [move]. *)
Definition is_move (a : action) : bool :=
  match a with
  | Move _ _ => true
  | _ => false
  end.

Definition only_adds {R} (w w' : world R) : Prop :=
  w_dirs w ⊆ w_dirs w' /\ w_files w ⊆ w_files w'
  /\ exists t, w_trace w' = w_trace w ++ t
               /\ Forall (fun a => is_move a = false) t.

Definition adding {R A} (m : M R A) : Prop :=
  forall w, only_adds w (snd (m w)).
(** ** Concrete inputs *)

(** The default ratio [(0.8, 0.1, 0.1)] on ten entries. *)
Definition ratio_811 : list PyFloat.float :=
  [PyFloat.literal 8 10; PyFloat.literal 1 10; PyFloat.literal 1 10].

Definition ten_files : list entry :=
  map (fun i => Single ("data/cats/" +:+ Py.str (Z.of_nat i) +:+ ".jpg")) (seq 0 10).

(** A class of 250 entries. *)
Definition files_250 : list entry :=
  map (fun i => Single ("data/cats/" +:+ Py.str (Z.of_nat i) +:+ ".jpg")) (seq 0 250).

(** The ratio [(0.5, 0.5)]. *)
Definition ratio_half : list PyFloat.float :=
  [PyFloat.literal 5 10; PyFloat.literal 5 10].

(** One class with four files that pair up as (a1, a9) and (a55, a56),
    listed by the file system in two different orders. *)
Definition listed_a1_last (R : rng) : world R :=
  dataset R "data" [("c", ["a55.jpg"; "a56.jpg"; "a1.jpg"; "a9.jpg"])].

Definition listed_a9_first (R : rng) : world R :=
  dataset R "data" [("c", ["a55.jpg"; "a56.jpg"; "a9.jpg"; "a1.jpg"])].

(** One class with four pairs of files. *)
Definition four_pairs (R : rng) : world R :=
  dataset R "data"
    [("c", ["img001_a.jpg"; "img001_b.jpg"; "img002_a.jpg"; "img002_b.jpg";
            "img003_a.jpg"; "img003_b.jpg"; "img004_a.jpg"; "img004_b.jpg"])].

(** Two classes; one file of the first lies in a subdirectory. *)
Definition nested (R : rng) : world R :=
  dataset R "data"
    [("cats", ["a.jpg"; "b.jpg"; "sub/c.jpg"; "d.png"; "e.jpeg"]);
     ("dogs", ["x.jpg"; "y.jpg"])].

(** A small class and a larger one. *)
Definition small_and_big (R : rng) : world R :=
  dataset R "data"
    [("small", ["a.jpg"; "a_0.jpg"; "v.jpg"]);
     ("big", ["p.jpg"; "q.jpg"; "r.jpg"; "s.jpg"; "t.jpg"])].

(** The world after the split phase of fixed mode on it (one val file
    per class, seed 4). *)
Definition small_and_big_split : world lcg :=
  Eval vm_compute in
    snd (fixed lcg "data" "output" 4 (FixedInt 1) false None (small_and_big lcg)).

(** Classes of 80 and of 100 files. *)
Definition numbered (n : nat) : list string :=
  map (fun i => "img" +:+ Py.str (Z.of_nat i) +:+ ".jpg") (seq 0 n).

Definition classes_80_100 : world lcg :=
  dataset lcg "data" [("small", numbered 80); ("big", numbered 100)].


(** A class whose two files have the same name in two subdirectories. *)
Definition same_names (R : rng) : world R :=
  dataset R "data" [("c", ["a/x.jpg"; "b/x.jpg"])].

(** Three groups of two, every member a file of [four_pairs]. *)
Definition three_pairs : list (list path) :=
  [["data/c/img001_a.jpg"; "data/c/img001_b.jpg"];
   ["data/c/img002_a.jpg"; "data/c/img002_b.jpg"];
   ["data/c/img003_a.jpg"; "data/c/img003_b.jpg"]].
(** * Properties *)

(** ** Facts about binary64 rounding *)

Module FloatFacts.
Import PyFloat.

Lemma digits2_pos_bounds (m : positive) :
2 ^ (Z.pos (digits2_pos m) - 1) <= Z.pos m < 2 ^ Z.pos (digits2_pos m).
Proof.
induction m as [m IH | m IH |]; cbn [digits2_pos].
- rewrite Pos2Z.inj_succ. replace (Z.succ (Z.pos (digits2_pos m)) - 1) with (Z.pos (digits2_pos m)) by lia.
  rewrite Z.pow_succ_r by lia.
  replace (Z.pos (digits2_pos m)) with (Z.succ (Z.pos (digits2_pos m) - 1)) at 1 by lia.
  rewrite Z.pow_succ_r by lia. lia.
- rewrite Pos2Z.inj_succ. replace (Z.succ (Z.pos (digits2_pos m)) - 1) with (Z.pos (digits2_pos m)) by lia.
  rewrite Z.pow_succ_r by lia.
  replace (Z.pos (digits2_pos m)) with (Z.succ (Z.pos (digits2_pos m) - 1)) at 1 by lia.
  rewrite Z.pow_succ_r by lia. lia.
- cbn. lia.
Qed.

Lemma Zdigits2_le (a b : Z) : 0 <= a <= b -> Zdigits2 a <= Zdigits2 b.
Proof.
intros [Ha Hab]. destruct a as [|a|a]; [|  | lia].
- destruct b; cbn; lia.
- destruct b as [|b|b]; try lia. cbn [Zdigits2].
  pose proof (digits2_pos_bounds a) as [Ha1 _].
  pose proof (digits2_pos_bounds b) as [_ Hb2].
  destruct (Z.le_gt_cases (Z.pos (digits2_pos a)) (Z.pos (digits2_pos b))) as [|Hgt]; [done|].
  exfalso.
  assert (2 ^ Z.pos (digits2_pos b) <= 2 ^ (Z.pos (digits2_pos a) - 1))
    by (apply Z.pow_le_mono_r; lia).
  lia.
Qed.

Lemma Zdigits2_lt_pow (a k : Z) : 0 <= a < 2 ^ k -> 0 <= k -> Zdigits2 a <= k.
Proof.
intros [Ha Hak] Hk. destruct a as [|a|a]; cbn [Zdigits2]; [lia| |lia].
pose proof (digits2_pos_bounds a) as [Ha1 _].
destruct (Z.le_gt_cases (Z.pos (digits2_pos a)) k) as [|Hgt]; [done|].
exfalso.
assert (2 ^ k <= 2 ^ (Z.pos (digits2_pos a) - 1)) by (apply Z.pow_le_mono_r; lia).
lia.
Qed.

Lemma shr_1_m (mrs : shr_record) :
0 <= shr_m mrs -> 0 <= shr_m (shr_1 mrs) <= shr_m mrs.
Proof.
destruct mrs as [m r s]. cbn [shr_m]. intros Hm.
destruct m as [|[p|p|]|p]; cbn; lia.
Qed.

Lemma iter_shr_1_m (p : positive) (mrs : shr_record) :
0 <= shr_m mrs -> 0 <= shr_m (SpecFloat.iter_pos shr_1 p mrs) <= shr_m mrs.
Proof.
revert mrs. induction p as [p IH | p IH |]; intros mrs Hm; cbn [SpecFloat.iter_pos].
- pose proof (shr_1_m mrs Hm) as H1.
  pose proof (IH _ (proj1 H1)) as H2.
  pose proof (IH _ (proj1 H2)) as H3. lia.
- pose proof (IH _ Hm) as H2.
  pose proof (IH _ (proj1 H2)) as H3. lia.
- by apply shr_1_m.
Qed.

Lemma shr_record_of_loc_m m l : shr_m (shr_record_of_loc m l) = m.
Proof. destruct l as [|[| |]]; reflexivity. Qed.

(** Result of [shr_fexp]: mantissa shrinks, exponent is the max of the input exponent and [fexp]. *)
Lemma shr_fexp_bounds (m e : Z) (l : location) :
0 <= m ->
let '(mrs, e') := shr_fexp prec emax m e l in
0 <= shr_m mrs <= m /\ e' = Z.max e (fexp prec emax (Zdigits2 m + e)).
Proof.
intros Hm. unfold shr_fexp, shr.
destruct (fexp prec emax (Zdigits2 m + e) - e) as [|p|p] eqn:Hn.
- rewrite shr_record_of_loc_m. lia.
- pose proof (iter_shr_1_m p (shr_record_of_loc m l)) as H.
  rewrite shr_record_of_loc_m in H. specialize (H Hm). lia.
- rewrite shr_record_of_loc_m. lia.
Qed.

Lemma round_nearest_even_bounds m l :
0 <= m -> m <= round_nearest_even m l <= m + 1.
Proof.
intros Hm. destruct l as [|[| |]]; cbn; try lia. destruct (Z.even m); lia.
Qed.


Lemma Zdigits2_succ (m : Z) : 0 <= m -> Zdigits2 (m + 1) <= Zdigits2 m + 1.
Proof.
intros Hm. destruct m as [|m|m]; [by vm_compute| |lia].
apply Zdigits2_lt_pow; [|cbn [Zdigits2]; lia].
pose proof (digits2_pos_bounds m) as [_ H]. cbn [Zdigits2].
rewrite Z.pow_add_r by lia. rewrite Z.pow_1_r. lia.
Qed.

Lemma digits2_pos_mul (a b : positive) :
Z.pos (digits2_pos (a * b)) <= Z.pos (digits2_pos a) + Z.pos (digits2_pos b).
Proof.
pose proof (digits2_pos_bounds a) as [_ Ha].
pose proof (digits2_pos_bounds b) as [_ Hb].
change (Zdigits2 (Z.pos (a * b)) <= Z.pos (digits2_pos a) + Z.pos (digits2_pos b)).
apply Zdigits2_lt_pow; [|lia].
rewrite Z.pow_add_r by lia. rewrite Pos2Z.inj_mul. nia.
Qed.

Lemma fexp_mono (a b : Z) : a <= b -> fexp prec emax a <= fexp prec emax b.
Proof. unfold fexp. lia. Qed.

(** A bound on what [binary_round_aux] returns: the sign is kept, the
  mantissa gains at most one digit, and the exponent is at most the
  exponent [e2] reached after the two normalisation steps; when [e2]
  is in range there is no overflow. *)
Lemma binary_round_aux_bounded (s : bool) (mx ex : Z) (lx : location) :
0 <= mx ->
let d := Zdigits2 mx in
let e1 := Z.max ex (fexp prec emax (d + ex)) in
let e2 := Z.max e1 (fexp prec emax (d + 1 + e1)) in
e2 <= emax - prec ->
match binary_round_aux prec emax s mx ex lx with
| S754_zero s' => s' = s
| S754_finite s' m e => s' = s /\ Z.pos (digits2_pos m) <= d + 1 /\ e <= e2
| _ => False
end.
Proof.
intros Hmx d e1 e2 He2. unfold binary_round_aux.
pose proof (shr_fexp_bounds mx ex lx Hmx) as H1.
destruct (shr_fexp prec emax mx ex lx) as [mrs' e'].
destruct H1 as [Hm' He'].
pose proof (round_nearest_even_bounds (shr_m mrs') (loc_of_shr_record mrs')
              (proj1 Hm')) as Hr.
set (m1 := round_nearest_even (shr_m mrs') (loc_of_shr_record mrs')) in *.
assert (Hm1 : 0 <= m1) by lia.
pose proof (shr_fexp_bounds m1 e' loc_Exact Hm1) as H2.
destruct (shr_fexp prec emax m1 e' loc_Exact) as [mrs'' e''].
destruct H2 as [Hm'' He''].
assert (Hd1 : Zdigits2 m1 <= d + 1).
{ etrans; [apply (Zdigits2_le m1 (mx + 1)); lia|]. by apply Zdigits2_succ. }
assert (He''2 : e'' <= e2).
{ subst e'' e2 e'. fold d. fold e1.
  pose proof (fexp_mono (Zdigits2 m1 + e1) (d + 1 + e1)). lia. }
destruct (shr_m mrs'') as [|m|m] eqn:Hm; [done| |lia].
assert (Hle : (e'' <=? emax - prec) = true) by (apply Z.leb_le; lia).
rewrite Hle. split; [done|]. split; [|done].
etrans; [|exact Hd1].
apply (Zdigits2_le (Z.pos m) m1). lia.
Qed.


Lemma digits2_pos_iter_xO (p k : positive) :
Z.pos (digits2_pos (Pos.iter xO p k)) = Z.pos (digits2_pos p) + Z.pos k.
Proof.
induction k as [|k IH] using Pos.peano_ind.
- cbn. lia.
- rewrite Pos.iter_succ. cbn [digits2_pos]. lia.
Qed.

Lemma of_int_2 : of_int 2 = S754_finite false 4503599627370496 (-51).
Proof. by vm_compute. Qed.

Lemma is_fraction_cases (r : float) :
is_fraction r = true ->
(exists s, r = S754_zero s) \/
(exists m e, r = S754_finite false m e
             /\ Z.pos (digits2_pos m) <= 53 /\ e <= -51).
Proof.
unfold is_fraction. rewrite of_int_2.
destruct r as [s|s| |s m e]; intros H.
- left. by exists s.
- destruct s; discriminate H.
- discriminate H.
- right. apply andb_prop in H as [H Hle]. apply andb_prop in H as [Hv Hs].
  destruct s; [discriminate Hs|].
  exists m, e. split; [done|].
  unfold valid_binary, bounded, canonical_mantissa in Hv.
  apply andb_prop in Hv as [Hc _]. apply Z.eqb_eq in Hc.
  unfold fexp, prec in Hc.
  unfold SFleb, SFcompare in Hle.
  destruct (Z.compare_spec e (-51)); [lia..|discriminate Hle].
Qed.

Lemma of_int_cases (n : Z) :
0 <= n < 2 ^ 63 ->
of_int n = S754_zero false \/
(exists m e, of_int n = S754_finite false m e
             /\ Z.pos (digits2_pos m) <= 64 /\ e <= 21).
Proof.
intros [Hn0 Hn]. destruct n as [|p|p]; [by left| |lia].
unfold of_int, binary_normalize, binary_round.
assert (Hd : Z.pos (digits2_pos p) <= 63)
  by (apply (Zdigits2_lt_pow (Z.pos p) 63); lia).
destruct (shl_align p 0 (fexp prec emax (Z.pos (digits2_pos p) + 0)))
  as [mz ez] eqn:Hsh.
assert (Hz : Z.pos (digits2_pos mz) <= 63 /\ ez <= 0).
{ unfold shl_align in Hsh. unfold fexp, prec, emin, emax in Hsh.
  destruct (Z.max (Z.pos (digits2_pos p) + 0 - 53) (3 - 1024 - 53) - 0)
    as [|k|k] eqn:Hk; injection Hsh as <- <-; try lia.
  rewrite digits2_pos_iter_xO. lia. }
pose proof (binary_round_aux_bounded false (Z.pos mz) ez loc_Exact) as H.
cbn zeta in H. cbn [Zdigits2] in H.
destruct (binary_round_aux prec emax false (Z.pos mz) ez loc_Exact)
  as [s|s| |s m e].
- left. f_equal. apply H; [lia|]. unfold fexp, prec, emin, emax. lia.
- exfalso. apply H; [lia|]. unfold fexp, prec, emin, emax. lia.
- exfalso. apply H; [lia|]. unfold fexp, prec, emin, emax. lia.
- right. exists m, e.
  destruct H as (-> & Hm & He); [lia|unfold fexp, prec, emin, emax; lia|].
  split; [done|]. unfold fexp, prec, emin, emax in He. lia.
Qed.

(** The product of a fraction and a sequence length is a finite
  non-negative float: [int] of it does not raise, truncation and
  floor agree on it, and the result is a natural number. *)
Lemma to_int_mul_fraction (r : float) (n : Z) :
is_fraction r = true -> 0 <= n < 2 ^ 63 ->
exists z, to_int (mul r (of_int n)) = Ok z
          /\ floor (mul r (of_int n)) = Ok z /\ 0 <= z.
Proof.
intros Hr Hn.
destruct (is_fraction_cases r Hr) as [[s ->]|(m & e & -> & Hm & He)];
  destruct (of_int_cases n Hn) as [->|(mn & en & -> & Hmn & Hen)].
- exists 0. by cbn.
- exists 0. by cbn.
- exists 0. by cbn.
- unfold mul, SFmul. cbn [xorb].
  pose proof (binary_round_aux_bounded false (Z.pos (m * mn)) (e + en)
                loc_Exact) as H.
  cbn zeta in H. cbn [Zdigits2] in H.
  pose proof (digits2_pos_mul m mn) as Hd.
  destruct (binary_round_aux prec emax false (Z.pos (m * mn)) (e + en)
              loc_Exact) as [s|s| |s m' e'].
  + exists 0. by cbn.
  + exfalso. apply H; [lia|]. unfold fexp, prec, emin, emax. lia.
  + exfalso. apply H; [lia|]. unfold fexp, prec, emin, emax. lia.
  + destruct H as (-> & _ & _); [lia|unfold fexp, prec, emin, emax; lia|].
    exists (magnitude m' e'). cbn [to_int floor cond_Zopp].
    split; [done|]. split.
    * unfold magnitude. by destruct e'.
    * unfold magnitude. destruct e'; try lia.
      apply Z.div_pos; lia.
Qed.


End FloatFacts.
(** A decidable proposition settled by evaluating its decision
    procedure. *)
Ltac by_computation :=
  refine (bool_decide_unpack _ _); vm_compute; exact I.

(** ** Facts about strings *)

Lemma string_app_cons (a : ascii) (s t : string) :
  String a s +:+ t = String a (s +:+ t).
Proof. reflexivity. Qed.

Lemma string_app_nil_l (t : string) : "" +:+ t = t.
Proof. reflexivity. Qed.

Lemma string_app_nil_r (s : string) : s +:+ "" = s.
Proof.
  induction s as [|a s IH]; [done|]. by rewrite string_app_cons, IH.
Qed.

Lemma string_app_assoc (s t u : string) : (s +:+ t) +:+ u = s +:+ (t +:+ u).
Proof.
  induction s as [|a s IH]; [done|].
  by rewrite !string_app_cons, IH.
Qed.

Lemma string_app_length (s t : string) :
  String.length (s +:+ t) = (String.length s + String.length t)%nat.
Proof.
  induction s as [|a s IH]; [done|].
  rewrite string_app_cons. cbn [String.length]. by rewrite IH.
Qed.

(** ** Facts about paths *)

Section PathFacts.
Import Path.

Lemma rpartition_app (c : ascii) (s : string) :
  fst (rpartition c s) +:+ snd (rpartition c s) = s.
Proof.
  induction s as [|a s IH]; [done|]. cbn [rpartition].
  destruct (mem_char c s).
  - destruct (rpartition c s) as [h t]. cbn [fst snd] in *.
    by rewrite string_app_cons, IH.
  - by destruct (Ascii.eqb a c).
Qed.

Lemma rpartition_tail_free (c : ascii) (s : string) :
  mem_char c (snd (rpartition c s)) = false.
Proof.
  induction s as [|a s IH]; [done|]. cbn [rpartition].
  destruct (mem_char c s) eqn:Hm.
  - by destruct (rpartition c s) as [h t].
  - destruct (Ascii.eqb a c) eqn:Ha; cbn [snd mem_char]; [done|].
    by rewrite Ha, Hm.
Qed.

Lemma rpartition_head_last (c : ascii) (s : string) :
  fst (rpartition c s) = ""
  \/ Py.drop_last (fst (rpartition c s)) +:+ String c "" = fst (rpartition c s).
Proof.
  induction s as [|a s IH]; [by left|]. cbn [rpartition].
  destruct (mem_char c s) eqn:Hm.
  - destruct (rpartition c s) as [h t] eqn:Hr. cbn [fst] in *. right.
    destruct IH as [->|IH].
    + exfalso. pose proof (rpartition_app c s) as Happ.
      pose proof (rpartition_tail_free c s) as Hfree.
      rewrite Hr in Happ, Hfree. cbn [fst snd] in Happ, Hfree.
      rewrite string_app_nil_l in Happ. subst t. congruence.
    + destruct h as [|b h]; [done|].
      change (Py.drop_last (String a (String b h)))
        with (String a (Py.drop_last (String b h))).
      by rewrite string_app_cons, IH.
  - destruct (Ascii.eqb_spec a c) as [->|]; cbn [fst]; [by right|by left].
Qed.

Lemma stem_suffix (p : path) : stem p +:+ suffix p = name p.
Proof.
  unfold stem, suffix.
  destruct (has_suffix (name p)) eqn:Hs; [|apply string_app_nil_r].
  unfold has_suffix in Hs.
  pose proof (rpartition_app dot (name p)) as Happ.
  pose proof (rpartition_head_last dot (name p)) as Hlast.
  destruct (rpartition dot (name p)) as [h t]. cbn [fst snd] in *.
  destruct Hlast as [->|Hlast]; [done|].
  rewrite <- Happ. rewrite <- Hlast at 2.
  by rewrite string_app_assoc.
Qed.

(** [s.startswith(p)] says that [s] is [p] followed by some text. *)
Lemma startswith_app (s p : string) :
  Py.startswith s p = true <-> exists r, s = p +:+ r.
Proof.
  unfold Py.startswith. revert s. induction p as [|a p IH]; intros s.
  - destruct s; cbn; split; eauto.
  - destruct s as [|b s]; cbn [String.prefix].
    + split; [done|]. by intros [r Hr].
    + destruct (ascii_dec a b) as [->|Hne].
      * rewrite IH. split; intros [r Hr]; exists r.
        -- by rewrite string_app_cons, <- Hr.
        -- rewrite string_app_cons in Hr. by injection Hr.
      * split; [done|]. intros [r Hr]. rewrite string_app_cons in Hr.
        by injection Hr as -> _.
Qed.

End PathFacts.
(** ** Listing directories and files *)

Example pure_examples :
  Path.pure <$> ["a/"; "a//b"; "./a"; ""; "//a"; "///a"; "a/./b/"; "/"; "a/.."]
  = ["a"; "a/b"; "a"; "."; "//a"; "/a"; "a/b"; "/"; "a/.."].
Proof. vm_compute. reflexivity. Qed.

(** The call of [main.py], [ratio("dataset_sample/", ...)]: the
    separator at the end of the argument makes no difference to what
    [list_dirs] returns. *)
Example list_dirs_trailing_separator :
  let w := dataset lcg "dataset_sample" [("cats", ["a.jpg"]); ("dogs", [])] in
  fst (list_dirs lcg "dataset_sample/" w)
  = Ok ["dataset_sample/cats"; "dataset_sample/dogs"]
  /\ fst (list_dirs lcg "dataset_sample" w) = fst (list_dirs lcg "dataset_sample/" w)
  /\ fst (list_dirs lcg "elsewhere" w) = Raise (FileNotFoundError "elsewhere")
  /\ fst (list_dirs lcg "dataset_sample/cats/a.jpg" w)
     = Raise (NotADirectoryError "dataset_sample/cats/a.jpg").
Proof. cbn zeta. repeat split; vm_compute; reflexivity. Qed.

(** The extension filter looks at the end of the name in lower case. *)
Example eligible_names :
  eligible <$> ["c/IMG_0001.JPG"; "c/b.Png"; "c/.png"; "c/a.jpeg"; "c/a.jpg";
                "c/notes.txt"; "c/jpg"; "c/a.jpg.bak"]
  = [true; true; true; true; true; false; false; false].
Proof. vm_compute. reflexivity. Qed.
(** ** Slices *)

Section SliceFacts.
Context {A : Type}.
Implicit Types l : list A.

Lemma segment_lookup l (lo hi i : nat) :
  segment l lo hi !! i =
    if decide (lo + i < hi)%nat then l !! (lo + i)%nat else None.
Proof.
  unfold segment. rewrite lookup_drop.
  case_decide.
  - by rewrite lookup_take_lt.
  - apply lookup_take_ge. lia.
Qed.

Lemma segment_length l (lo hi : nat) :
  length (segment l lo hi) = (Nat.min hi (length l) - lo)%nat.
Proof. unfold segment. rewrite length_drop, length_take. lia. Qed.

Lemma bound_nonneg (n : nat) (i : Z) :
  0 <= i -> Py.bound n i = Nat.min (Z.to_nat i) n.
Proof.
  intros Hi. unfold Py.bound.
  destruct (Z.ltb_spec i 0); lia.
Qed.

Lemma slice_to_nonneg l (hi : Z) :
  0 <= hi -> Py.slice_to l hi = segment l 0 (Z.to_nat hi).
Proof.
  intros H. unfold Py.slice_to, segment. rewrite bound_nonneg by done.
  rewrite drop_0.
  destruct (Nat.le_ge_cases (Z.to_nat hi) (length l)).
  - by rewrite Nat.min_l.
  - rewrite Nat.min_r by done. by rewrite !take_ge by lia.
Qed.

Lemma slice_from_nonneg l (lo : Z) :
  0 <= lo -> Py.slice_from l lo = segment l (Z.to_nat lo) (length l).
Proof.
  intros H. unfold Py.slice_from, segment. rewrite bound_nonneg by done.
  rewrite take_ge by lia.
  destruct (Nat.le_ge_cases (Z.to_nat lo) (length l)).
  - by rewrite Nat.min_l.
  - rewrite Nat.min_r by done. by rewrite !drop_ge by lia.
Qed.

Lemma slice_nonneg l (lo hi : Z) :
  0 <= lo -> 0 <= hi ->
  Py.slice l lo hi = segment l (Z.to_nat lo) (Z.to_nat hi).
Proof.
  intros Hlo Hhi. unfold Py.slice, segment. rewrite !bound_nonneg by done.
  apply list_eq. intros i. rewrite !lookup_drop.
  destruct (decide (Nat.min (Z.to_nat lo) (length l) + i < Nat.min (Z.to_nat hi) (length l))%nat).
  - rewrite lookup_take_lt by done.
    destruct (decide (Z.to_nat lo + i < Z.to_nat hi)%nat).
    + rewrite lookup_take_lt by done. f_equal. lia.
    + rewrite lookup_take_ge by lia. apply lookup_ge_None. lia.
  - rewrite lookup_take_ge by lia.
    destruct (decide (Z.to_nat lo + i < Z.to_nat hi)%nat).
    + rewrite lookup_take_lt by done. symmetry. apply lookup_ge_None. lia.
    + by rewrite lookup_take_ge by lia.
Qed.

Lemma segment_split3 l (a b : nat) :
  (a <= b)%nat ->
  segment l 0 a ++ segment l a b ++ segment l b (length l) = l.
Proof.
  intros Hab. unfold segment. rewrite drop_0.
  rewrite (take_ge l (length l)) by lia.
  replace (take a l) with (take a (take b l))
    by (rewrite take_take; f_equal; lia).
  rewrite app_assoc, take_drop. apply take_drop.
Qed.

Lemma segment_split2 l (a : nat) :
  segment l 0 a ++ segment l a (length l) = l.
Proof.
  unfold segment. rewrite drop_0, (take_ge l (length l)) by lia.
  apply take_drop.
Qed.

End SliceFacts.

(** ** Shuffling and sorting *)

Lemma insert_swap_Permutation {A} (t : list A) (j : nat) (a b : A) :
  t !! j = Some b -> b :: <[j:=a]> t ≡ₚ a :: t.
Proof.
  revert j. induction t as [|c t IH]; intros [|j] Hj; simplify_eq/=.
  - apply perm_swap.
  - rewrite (perm_swap c b). rewrite (IH j Hj). apply perm_swap.
Qed.

Lemma swap_Permutation {A} (i j : nat) (x : list A) : swap i j x ≡ₚ x.
Proof.
  revert i j. induction x as [|c x IH]; intros i j; [by destruct i, j|].
  unfold swap.
  destruct i as [|i], j as [|j]; cbn [lookup list_lookup].
  - done.
  - destruct (x !! j) as [b|] eqn:Hb; [|done]. cbn.
    by apply insert_swap_Permutation.
  - destruct (x !! i) as [a|] eqn:Ha; [|done]. cbn.
    by apply insert_swap_Permutation.
  - specialize (IH i j). unfold swap in IH.
    destruct (x !! i) as [a|]; [|done]. destruct (x !! j) as [b|]; [|done].
    cbn. by rewrite IH.
Qed.

Section Shuffle.
Context (R : rng).

Lemma shuffle_from_Permutation {A} (i : nat) (x : list A) (st : rng_state R) :
  fst (shuffle_from R i x st) ≡ₚ x.
Proof.
  revert x st. induction i as [|i IH]; intros x st; cbn [shuffle_from]; [done|].
  destruct (rng_below R (S i + 1) st) as [j st'].
  rewrite IH. apply swap_Permutation.
Qed.

(** [shuffle] returns a permutation of its argument, changes nothing but
    the state of the generator, and does not raise. *)
Lemma shuffle_spec {A} (x : list A) (w : world R) :
  exists x' st',
    shuffle R x w = (Ok x', World (w_dirs w) (w_files w) st' (w_trace w) (w_late w))
    /\ x' ≡ₚ x
    /\ (x', st') = shuffle_from R (length x - 1) x (w_rng w).
Proof.
  unfold shuffle.
  pose proof (shuffle_from_Permutation (length x - 1) x (w_rng w)) as Hp.
  destruct (shuffle_from R (length x - 1) x (w_rng w)) as [x' st'].
  by exists x', st'.
Qed.

End Shuffle.

Lemma sort_paths_Permutation (l1 l2 : list path) :
  l1 ≡ₚ l2 -> sort_paths l1 = sort_paths l2.
Proof.
  intros Hp. unfold sort_paths.
  apply (Sorted_unique String.le); [apply Sorted_merge_sort, _..|].
  by rewrite !merge_sort_Permutation.
Qed.

Lemma sort_paths_perm (l : list path) : sort_paths l ≡ₚ l.
Proof. apply merge_sort_Permutation. Qed.

Section SetupFiles.
Context (R : rng).

Lemma list_files_listing (directory : path) (w : world R) :
  list_files R directory w = (Ok (listing R directory w), w).
Proof. reflexivity. Qed.

(** Without grouping, [setup_files] does not raise; it returns the
    sorted listing shuffled from the freshly seeded generator: a
    permutation of the listing that depends on the seed and on the set
    of files listed, not on their order and not on the generator state
    before the call. *)
Lemma setup_files_ungrouped (class_dir : path) (seed : Z) (w : world R) :
  exists files st',
    setup_files R class_dir seed None w
    = (Ok files, World (w_dirs w) (w_files w) st' (w_trace w) (w_late w))
    /\ (files, st') =
       shuffle_from R (length (listing R class_dir w) - 1)
         (Single <$> sort_paths (listing R class_dir w)) (rng_seed R seed)
    /\ files ≡ₚ Single <$> listing R class_dir w.
Proof.
  unfold setup_files, bind, seed_rng. rewrite list_files_listing.
  set (w0 := World (w_dirs w) (w_files w) (rng_seed R seed) (w_trace w) (w_late w)).
  change (listing R class_dir w0) with (listing R class_dir w).
  destruct (shuffle_spec R (Single <$> sort_paths (listing R class_dir w)) w0)
    as (x' & st' & Heq & Hperm & Hsh).
  exists x', st'. split; [exact Heq|]. split.
  - rewrite Hsh. cbn [w_rng w0]. rewrite length_fmap.
    by rewrite (Permutation_length (sort_paths_perm _)).
  - by rewrite Hperm, sort_paths_perm.
Qed.

Lemma setup_files_order_independent (class_dir : path) (seed : Z)
    (w1 w2 : world R) :
  w_files w1 ≡ₚ w_files w2 ->
  fst (setup_files R class_dir seed None w1)
  = fst (setup_files R class_dir seed None w2)
  /\ w_rng (snd (setup_files R class_dir seed None w1))
     = w_rng (snd (setup_files R class_dir seed None w2)).
Proof.
  intros Hperm.
  destruct (setup_files_ungrouped class_dir seed w1) as (f1 & s1 & -> & H1 & _).
  destruct (setup_files_ungrouped class_dir seed w2) as (f2 & s2 & -> & H2 & _).
  assert (Hl : listing R class_dir w1 ≡ₚ listing R class_dir w2)
    by (unfold listing; by rewrite Hperm).
  rewrite (sort_paths_Permutation _ _ Hl), (Permutation_length Hl) in H1.
  rewrite <- H2 in H1. by injection H1 as -> ->.
Qed.

End SetupFiles.

Lemma concat_NoDup_disjoint {A} (ls : list (list A)) (i j : nat) (a b : list A) :
  NoDup (concat ls) -> i ≠ j -> ls !! i = Some a -> ls !! j = Some b ->
  forall x, x ∈ a -> x ∉ b.
Proof.
  revert i j. induction ls as [|l ls IH]; intros i j Hnd Hij Ha Hb x Hxa Hxb;
    [by rewrite lookup_nil in Ha|].
  cbn [concat] in Hnd. apply NoDup_app in Hnd as (_ & Hdis & Hnd).
  destruct i as [|i], j as [|j]; simplify_eq/=.
  - apply (Hdis x Hxa). apply list_elem_of_In, in_concat.
    exists b. split; apply list_elem_of_In; [by eapply list_elem_of_lookup_2|done].
  - apply (Hdis x Hxb). apply list_elem_of_In, in_concat.
    exists a. split; apply list_elem_of_In; [by eapply list_elem_of_lookup_2|done].
  - eapply (IH i j); eauto.
Qed.

Lemma split_files_nonneg (files : list entry) (a b : Z) (use_test : bool) :
  0 <= a -> 0 <= b ->
  split_files files a b use_test
  = plan_of_bounds files (Z.to_nat a) (Z.to_nat b) use_test.
Proof.
  intros Ha Hb. unfold split_files, plan_of_bounds.
  rewrite slice_to_nonneg by done.
  destruct use_test; cbn [app].
  - by rewrite slice_nonneg, slice_from_nonneg by done.
  - by rewrite slice_from_nonneg by done.
Qed.

Lemma plan_of_bounds_concat (files : list entry) (a b : nat) (use_test : bool) :
  (a <= b)%nat -> concat (plan_of_bounds files a b use_test).*1 = files.
Proof.
  intros Hab. unfold plan_of_bounds. destruct use_test; cbn.
  - rewrite app_nil_r. by apply segment_split3.
  - rewrite app_nil_r. apply segment_split2.
Qed.

(** C1.  Ratio mode.  For a ratio tuple of two or three binary64
    fractions and a class of N entries (N below 2^63), the two products
    [ratio[0] * N] and [ratio[1] * N] are finite and non-negative,
    [int] of each is its floor, and [ratio_plan] returns the slices
    train = [0, train_end), val = [train_end, val_end) and
    test = [val_end, N) for three elements, train = [0, train_end) and
    val = [train_end, N) for two, with train_end = floor(ratio[0] * N)
    and val_end = train_end + floor(ratio[1] * N).  The subsets in
    order make up the shuffled sequence again, so their lengths sum to
    N, they are pairwise disjoint when the entries are distinct, and
    every entry past the last boundary is in the last subset. *)
Theorem ratio_plan_slices (files : list entry) (ratio : list PyFloat.float) :
  (length ratio = 2 \/ length ratio = 3)%nat ->
  Forall (fun r => PyFloat.is_fraction r = true) ratio ->
  Z.of_nat (length files) < 2 ^ 63 ->
  exists (r0 r1 : PyFloat.float) (train_end n_val : nat) (li : plan),
    ratio !! 0%nat = Some r0 /\ ratio !! 1%nat = Some r1
    /\ PyFloat.floor (PyFloat.mul r0 (PyFloat.of_int (Z.of_nat (length files))))
       = Ok (Z.of_nat train_end)
    /\ PyFloat.floor (PyFloat.mul r1 (PyFloat.of_int (Z.of_nat (length files))))
       = Ok (Z.of_nat n_val)
    /\ ratio_plan files ratio = Ok li
    /\ li = plan_of_bounds files train_end (train_end + n_val)
              (bool_decide (length ratio = 3%nat))
    /\ concat li.*1 = files
    /\ list_sum (map length li.*1) = length files
    /\ (NoDup files ->
        forall i j a b, i ≠ j -> li.*1 !! i = Some a -> li.*1 !! j = Some b ->
        forall x, x ∈ a -> x ∉ b).
Proof.
  intros Hlen Hfrac Hn.
  destruct ratio as [|r0 [|r1 rest]]; [cbn in Hlen; lia..|].
  apply Forall_cons in Hfrac as [H0 Hfrac]. apply Forall_cons in Hfrac as [H1 _].
  destruct (FloatFacts.to_int_mul_fraction r0 (Z.of_nat (length files)) H0)
    as (z0 & Hi0 & Hf0 & Hz0); [lia|].
  destruct (FloatFacts.to_int_mul_fraction r1 (Z.of_nat (length files)) H1)
    as (z1 & Hi1 & Hf1 & Hz1); [lia|].
  exists r0, r1, (Z.to_nat z0), (Z.to_nat z1).
  eexists. split; [done|]. split; [done|].
  rewrite !Z2Nat.id by done. split; [done|]. split; [done|].
  assert (Hplan : ratio_plan files (r0 :: r1 :: rest)
            = Ok (plan_of_bounds files (Z.to_nat z0) (Z.to_nat z0 + Z.to_nat z1)
                    (bool_decide (length (r0 :: r1 :: rest) = 3%nat)))).
  { unfold ratio_plan, ratio_count, index. cbn [lookup list_lookup result_bind].
    rewrite Hi0, Hi1. cbn [result_bind].
    rewrite split_files_nonneg by lia. by rewrite Z2Nat.inj_add by done. }
  split; [exact Hplan|]. split; [done|].
  assert (Hcat : concat (plan_of_bounds files (Z.to_nat z0)
                   (Z.to_nat z0 + Z.to_nat z1)
                   (bool_decide (length (r0 :: r1 :: rest) = 3%nat))).*1 = files)
    by (apply plan_of_bounds_concat; lia).
  split; [done|]. split.
  - rewrite <- Hcat at 2. by rewrite length_concat.
  - intros Hnd i j a b Hij Ha Hb. rewrite <- Hcat in Hnd.
    by eapply concat_NoDup_disjoint.
Qed.

Lemma ratio_plan_slices_witness :
  exists (r0 r1 : PyFloat.float) (train_end n_val : nat) (li : plan),
    ratio_811 !! 0%nat = Some r0 /\ ratio_811 !! 1%nat = Some r1
    /\ PyFloat.floor (PyFloat.mul r0 (PyFloat.of_int (Z.of_nat (length ten_files))))
       = Ok (Z.of_nat train_end)
    /\ PyFloat.floor (PyFloat.mul r1 (PyFloat.of_int (Z.of_nat (length ten_files))))
       = Ok (Z.of_nat n_val)
    /\ ratio_plan ten_files ratio_811 = Ok li
    /\ li = plan_of_bounds ten_files train_end (train_end + n_val)
              (bool_decide (length ratio_811 = 3%nat))
    /\ concat li.*1 = ten_files
    /\ list_sum (map length li.*1) = length ten_files
    /\ (NoDup ten_files ->
        forall i j a b, i ≠ j -> li.*1 !! i = Some a -> li.*1 !! j = Some b ->
        forall x, x ∈ a -> x ∉ b).
Proof.
  apply (ratio_plan_slices ten_files ratio_811).
  - right. reflexivity.
  - repeat (constructor; [vm_compute; reflexivity|]). constructor.
  - vm_compute. reflexivity.
Defined.

(** Ratio mode on concrete inputs: ten entries at (0.8, 0.1, 0.1) give
    8 / 1 / 1; five entries at (0.7, 0.3) give 3 / 2; three entries at
    (0.5, 0.5, 0.0) give 1 / 1 / 1, the entry left over by the two
    floors going to test. *)
Example ratio_plan_811 :
  (fun li => map (fun p => (length (fst p), snd p)) li) <$>
    match ratio_plan ten_files ratio_811 with Ok li => Some li | _ => None end
  = Some [(8%nat, "train"); (1%nat, "val"); (1%nat, "test")].
Proof. vm_compute. reflexivity. Qed.

Example ratio_plan_73 :
  ratio_plan (map Single ["a"; "b"; "c"; "d"; "e"])
    [PyFloat.literal 7 10; PyFloat.literal 3 10]
  = Ok [([Single "a"; Single "b"; Single "c"], "train");
        ([Single "d"; Single "e"], "val")].
Proof. vm_compute. reflexivity. Qed.

Example ratio_plan_remainder :
  ratio_plan (map Single ["a"; "b"; "c"])
    [PyFloat.literal 5 10; PyFloat.literal 5 10; PyFloat.of_int 0]
  = Ok [([Single "a"], "train"); ([Single "b"], "val"); ([Single "c"], "test")].
Proof. vm_compute. reflexivity. Qed.

(** ** Fixed mode *)

Lemma sum_fold_left (l : list Z) (a : Z) : fold_left Z.add l a = a + Py.sum l.
Proof.
  unfold Py.sum. revert a. induction l as [|x l IH]; intros a; cbn; [lia|].
  rewrite (IH (a + x)), (IH (0 + x)). lia.
Qed.

Lemma sum_cons (x : Z) (l : list Z) : Py.sum (x :: l) = x + Py.sum l.
Proof. unfold Py.sum at 1. cbn. by rewrite sum_fold_left. Qed.

(** X21 (the counts of claim C3).  Fixed mode.  For one or two
    non-negative counts and a class
    of N entries, [fixed_plan] raises exactly when N <= sum(fixed); the
    exception is the [ValueError] whose message carries the stem of the
    class directory, N and sum(fixed); when N > sum(fixed) the plan has
    N - sum(fixed) entries in train, fixed[0] in val and, with a second
    count, fixed[1] in test. *)
Theorem fixed_plan_counts (class_dir : path) (files : list entry)
    (kind : seq_kind) (fixed : list Z) :
  (length fixed = 1 \/ length fixed = 2)%nat ->
  Forall (fun c => 0 <= c) fixed ->
  let n := Z.of_nat (length files) in
  let required := Py.sum fixed in
  ((exists e, fixed_plan class_dir files kind fixed = Raise e) <-> n <= required)
  /\ (n <= required ->
      fixed_plan class_dir files kind fixed
      = Raise (ValueError (msg_too_few class_dir n (repr_fixed kind fixed) required))
      /\ exists pre mid1 mid2 post,
           msg_too_few class_dir n (repr_fixed kind fixed) required
           = pre +:+ Path.stem class_dir +:+ mid1 +:+ Py.str n +:+ mid2
                 +:+ Py.str required +:+ post)
  /\ (required < n ->
      exists (n_val : Z) (li : plan),
        fixed !! 0%nat = Some n_val
        /\ fixed_plan class_dir files kind fixed = Ok li
        /\ li = plan_of_bounds files (Z.to_nat (n - required))
                  (Z.to_nat (n - required + n_val))
                  (bool_decide (length fixed = 2%nat))
        /\ map (fun p => (Z.of_nat (length (fst p)), snd p)) li
           = (n - required, "train") :: (n_val, "val")
               :: match fixed !! 1%nat with
                  | Some n_test => [(n_test, "test")]
                  | None => []
                  end).
Proof.
  intros Hlen Hpos n required.
  assert (Hreq : 0 <= required).
  { subst required. destruct fixed as [|c0 [|c1 [|]]]; cbn in Hlen; try lia.
    - apply Forall_cons in Hpos as [? _]. rewrite sum_cons. cbn. lia.
    - apply Forall_cons in Hpos as [? Hpos]. apply Forall_cons in Hpos as [? _].
      rewrite !sum_cons. cbn. lia. }
  assert (Hraise : n <= required ->
            fixed_plan class_dir files kind fixed
            = Raise (ValueError (msg_too_few class_dir n (repr_fixed kind fixed) required))).
  { intros Hle. unfold fixed_plan. fold n. fold required.
    destruct (Z.gtb_spec n required); [lia|done]. }
  assert (Hok : required < n ->
            exists n_val, fixed !! 0%nat = Some n_val /\
            fixed_plan class_dir files kind fixed
            = Ok (plan_of_bounds files (Z.to_nat (n - required))
                    (Z.to_nat (n - required + n_val))
                    (bool_decide (length fixed = 2%nat)))).
  { intros Hlt. destruct fixed as [|c0 rest]; [cbn in Hlen; lia|].
    exists c0. split; [done|].
    unfold fixed_plan. fold n. fold required.
    destruct (Z.gtb_spec n required); [|lia]. cbn [negb index lookup list_lookup result_bind].
    apply Forall_cons in Hpos as [? _].
    by rewrite split_files_nonneg by lia. }
  split; [|split].
  - split.
    + intros [e He]. destruct (Z.le_gt_cases n required) as [|Hlt]; [done|].
      destruct (Hok Hlt) as (? & _ & Heq). rewrite Heq in He. discriminate He.
    + intros Hle. eexists. by apply Hraise.
  - intros Hle. split; [by apply Hraise|].
    unfold msg_too_few.
    exists ("The number of samples in class " +:+ Py.dquote),
      (Py.dquote +:+ " are too few. There are only "),
      (" samples available but your fixed parameter " +:+ repr_fixed kind fixed
         +:+ " requires at least "),
      " files. You may want to split your classes by ratio.".
    by rewrite !string_app_assoc.
  - intros Hlt. destruct (Hok Hlt) as (n_val & H0 & Heq).
    exists n_val. eexists. split; [done|]. split; [exact Heq|]. split; [done|].
    destruct fixed as [|c0 [|c1 [|]]]; cbn in Hlen; try lia; simplify_eq/=.
    + apply Forall_cons in Hpos as [? _].
      subst required. rewrite sum_cons in *. cbn in *.
      unfold plan_of_bounds. cbn [map fst snd].
      rewrite !segment_length. repeat f_equal; lia.
    + apply Forall_cons in Hpos as [? Hpos]. apply Forall_cons in Hpos as [? _].
      subst required. rewrite !sum_cons in *. cbn in *.
      unfold plan_of_bounds. cbn [map fst snd].
      rewrite !segment_length. repeat f_equal; lia.
Qed.

(** How [split_class_dir_fixed] uses [fixed_plan]: an exception of the
    check leaves the world as [setup_files] left it, and no file is
    transferred. *)
Lemma split_class_dir_fixed_steps (R : rng) (class_dir output : path)
    (kind : seq_kind) (fixed : list Z) (seed : Z) (prog_bar : nat)
    (group_prefix : option Z) (w : world R) :
  split_class_dir_fixed R class_dir output kind fixed seed prog_bar group_prefix w
  = match setup_files R class_dir seed group_prefix w with
    | (Ok files, w1) =>
        match fixed_plan class_dir files kind fixed with
        | Ok li =>
            match copy_files R li class_dir output prog_bar w1 with
            | (Ok _, w2) => (Ok (Z.of_nat (length files)), w2)
            | (Raise e, w2) => (Raise e, w2)
            end
        | Raise e => (Raise e, w1)
        end
    | (Raise e, w1) => (Raise e, w1)
    end.
Proof.
  unfold split_class_dir_fixed, bind, lift, ret.
  destruct (setup_files R class_dir seed group_prefix w) as [[files|e] w1]; [|done].
  destruct (fixed_plan class_dir files kind fixed) as [li|e]; [|done].
  by destruct (copy_files R li class_dir output prog_bar w1) as [[[]|e] w2].
Qed.

Lemma fixed_plan_counts_witness :
  (length [100; 100] = 1 \/ length [100; 100] = 2)%nat
  /\ Forall (fun c => 0 <= c) [100; 100]
  /\ exists li,
       fixed_plan "data/cats" files_250 PyTuple [100; 100] = Ok li
       /\ map (fun p => (Z.of_nat (length (fst p)), snd p)) li
          = [(50, "train"); (100, "val"); (100, "test")].
Proof.
  split; [right; reflexivity|]. split; [repeat constructor; lia|].
  destruct (fixed_plan_counts "data/cats" files_250 PyTuple [100; 100])
    as (_ & _ & H); [right; reflexivity|repeat constructor; lia|].
  destruct H as (n_val & li & H0 & Hli & _ & Hlen); [vm_compute; reflexivity|].
  exists li. split; [exact Hli|]. rewrite Hlen.
  injection H0 as <-. vm_compute. reflexivity.
Defined.

(** The two examples of the specification: 250 files at (100, 100) give
    50 / 100 / 100; 150 files at (100, 100) raise, reporting 150
    available and 200 required. *)
Example fixed_plan_250 :
  match fixed_plan "data/cats" files_250 PyTuple [100; 100] with
  | Ok li => map (fun p => (length (fst p), snd p)) li
  | Raise _ => []
  end = [(50%nat, "train"); (100%nat, "val"); (100%nat, "test")].
Proof. vm_compute. reflexivity. Qed.

Example fixed_plan_150 :
  fixed_plan "data/cats" (take 150 files_250) PyTuple [100; 100]
  = Raise (ValueError
      ("The number of samples in class " +:+ Py.dquote +:+ "cats" +:+ Py.dquote
       +:+ " are too few. There are only 150 samples available but your fixed parameter (100, 100) requires at least 200 files. You may want to split your classes by ratio.")).
Proof. vm_compute. reflexivity. Qed.


(** C3, the message.  The insufficient-samples message shows
    [class_dir.stem], the name of the class directory without what
    follows its last dot, where the output directories carry the name
    itself ([path.split(class_dir)[1]]): the classes [img.v1] and
    [img.v2], 150 files each at counts (100, 100), are both reported as
    the class [img], in one and the same message. *)
Lemma insufficient_samples_message_shows_the_stem :
  let run class_dir :=
    fixed_plan class_dir (take 150 files_250) PyTuple [100; 100] in
  snd (Path.split "data/img.v1") = "img.v1"
  /\ snd (Path.split "data/img.v2") = "img.v2"
  /\ run "data/img.v2"
     = Raise (ValueError
         ("The number of samples in class " +:+ Py.dquote +:+ "img" +:+ Py.dquote
          +:+ " are too few. There are only 150 samples available but your fixed parameter (100, 100) requires at least 200 files. You may want to split your classes by ratio."))
  /\ run "data/img.v1" = run "data/img.v2".
Proof. cbn zeta. repeat split; vm_compute; reflexivity. Qed.
Section FixedKind.
Context (R : rng) (k1 k2 : seq_kind) (l : list Z).

Lemma same_up_to_repr_refl {A} (r : result A) : same_up_to_repr k1 k2 l r r.
Proof. destruct r; cbn; auto. Qed.

Lemma fixed_plan_kind (class_dir : path) (files : list entry) :
  same_up_to_repr k1 k2 l (fixed_plan class_dir files k1 l)
                          (fixed_plan class_dir files k2 l).
Proof.
  unfold fixed_plan.
  destruct (negb (Z.of_nat (length files) >? Py.sum l)).
  - cbn. right. eauto.
  - apply same_up_to_repr_refl.
Qed.

Lemma same_run_refl {A} (o : result A * world R) : same_run k1 k2 l o o.
Proof. split; [apply same_up_to_repr_refl|done]. Qed.

Lemma same_run_bind {A B} (m1 m2 : M R A) (k : A -> M R B) (w : world R) :
  same_run k1 k2 l (m1 w) (m2 w) ->
  same_run k1 k2 l (bind R m1 k w) (bind R m2 k w).
Proof.
  unfold bind, same_run.
  destruct (m1 w) as [[a1|e1] w1], (m2 w) as [[a2|e2] w2]; cbn;
    intros [H1 H2]; try done; subst.
  split; [apply same_up_to_repr_refl|done].
Qed.

Lemma same_run_bind_k {A B} (m : M R A) (k k' : A -> M R B) (w : world R) :
  (forall a w', same_run k1 k2 l (k a w') (k' a w')) ->
  same_run k1 k2 l (bind R m k w) (bind R m k' w).
Proof.
  intros Hk. unfold bind.
  destruct (m w) as [[a|e] w1]; [apply Hk|apply same_run_refl].
Qed.

Lemma split_class_dir_fixed_kind (class_dir output : path) (seed : Z)
    (prog_bar : nat) (group_prefix : option Z) (w : world R) :
  same_run k1 k2 l
    (split_class_dir_fixed R class_dir output k1 l seed prog_bar group_prefix w)
    (split_class_dir_fixed R class_dir output k2 l seed prog_bar group_prefix w).
Proof.
  unfold split_class_dir_fixed.
  apply same_run_bind_k. intros files w1.
  apply same_run_bind. split; [apply fixed_plan_kind|done].
Qed.

Lemma collect_lens_kind (dirs : list path) (output : path) (seed : Z)
    (group_prefix : option Z) (w : world R) :
  same_run k1 k2 l
    (collect_lens R dirs (fun class_dir =>
       split_class_dir_fixed R class_dir output k1 l seed 0 group_prefix) w)
    (collect_lens R dirs (fun class_dir =>
       split_class_dir_fixed R class_dir output k2 l seed 0 group_prefix) w).
Proof.
  revert w. induction dirs as [|d dirs IH]; intros w; [apply same_run_refl|].
  cbn [collect_lens].
  pose proof (split_class_dir_fixed_kind d output seed 0%nat group_prefix w)
    as [H1 H2].
  unfold bind at 1 3.
  destruct (split_class_dir_fixed R d output k1 l seed 0 group_prefix w)
    as [[n1|e1] w1],
    (split_class_dir_fixed R d output k2 l seed 0 group_prefix w)
    as [[n2|e2] w2]; cbn in H1, H2; try done; subst.
  apply same_run_bind, IH.
Qed.

Lemma fixed_kind (input output : path) (seed : Z) (oversample : bool)
    (group_prefix : option Z) (w : world R) :
  same_run k1 k2 l
    (fixed R input output seed (FixedSeq k1 l) oversample group_prefix w)
    (fixed R input output seed (FixedSeq k2 l) oversample group_prefix w).
Proof.
  unfold fixed.
  destruct (negb (bool_decide (length l = 1%nat ∨ length l = 2%nat)));
    [apply same_run_refl|].
  apply same_run_bind_k. intros dirs w0.
  apply same_run_bind, collect_lens_kind.
Qed.

End FixedKind.

(** C10, amended.  An int passed as [fixed] is replaced by the
    one-element list that holds it before the length check: the run is
    exactly the run on that list; compared with the run on the
    one-element tuple it changes the world in the same way and returns
    the same result, up to how the parameter is printed in the
    insufficient-samples message; and the plan of a class of N entries
    is train = [0, N - i) and val = [N - i, N), no test subset, when
    N > i, an insufficient-samples error otherwise. *)
Theorem fixed_int_coerced (R : rng) (input output : path) (seed i : Z)
    (oversample : bool) (group_prefix : option Z) (w : world R) :
  fixed R input output seed (FixedInt i) oversample group_prefix w
  = fixed R input output seed (FixedSeq PyList [i]) oversample group_prefix w
  /\ same_run PyList PyTuple [i]
       (fixed R input output seed (FixedInt i) oversample group_prefix w)
       (fixed R input output seed (FixedSeq PyTuple [i]) oversample group_prefix w)
  /\ (forall class_dir files kind,
        let n := Z.of_nat (length files) in
        fixed_plan class_dir files kind [i]
        = if n >? i
          then Ok [(Py.slice_to files (n - i), "train");
                   (Py.slice_from files (n - i), "val")]
          else Raise (ValueError
                        (msg_too_few class_dir n (repr_fixed kind [i]) i))).
Proof.
  split; [reflexivity|]. split.
  - apply (fixed_kind R PyList PyTuple [i]).
  - intros class_dir files kind n. unfold fixed_plan. fold n.
    replace (Py.sum [i]) with i by (unfold Py.sum; cbn; lia).
    destruct (n >? i); [|done].
    cbn [negb index lookup list_lookup result_bind split_files length].
    rewrite bool_decide_eq_false_2 by done. cbn [app].
    by replace (n - i + i) with n by lia.
Qed.

(** C10 as stated fails: called with the int 5 and with the tuple
    [(5,)] on a class of five files, fixed mode raises two different
    messages, one showing the parameter as a list, one as a tuple. *)
Lemma fixed_int_message_differs :
  let w := dataset lcg "data" [("c", numbered 5)] in
  let by_int :=
    fst (fixed lcg "data" "output" 1337 (FixedInt 5) false None w) in
  let by_tuple :=
    fst (fixed lcg "data" "output" 1337 (FixedSeq PyTuple [5]) false None w) in
  by_int = Raise (ValueError (msg_too_few "data/c" 5 "[5]" 5))
  /\ by_tuple = Raise (ValueError (msg_too_few "data/c" 5 "(5,)" 5))
  /\ String.eqb (msg_too_few "data/c" 5 "[5]" 5)
                (msg_too_few "data/c" 5 "(5,)" 5) = false.
Proof. cbn zeta. repeat split; vm_compute; reflexivity. Qed.
(** ** Grouping by prefix *)

Section Grouping.
Context (files : list path) (len_pairs : Z).

Lemma matches_elem (rs : gset string) (f : path) (s : string) (x : path) :
  x ∈ matches files rs f s ->
  x ∈ files /\ Path.name x ∉ rs /\ Path.name f ≠ Path.name x.
Proof. unfold matches. rewrite list_elem_of_filter. tauto. Qed.

Lemma matches_names_NoDup (rs : gset string) (f : path) (s : string) :
  NoDup (Path.name <$> files) ->
  NoDup (Path.name <$> matches files rs f s).
Proof.
  intros Hnd. eapply sublist_NoDup; [exact Hnd|].
  apply fmap_sublist, sublist_filter.
Qed.

Lemma find_matches_Ok (rs : gset string) (f : path) (n : nat) (s : string)
    (ms : list path) :
  find_matches files len_pairs rs f n s = Ok ms ->
  Z.of_nat (length ms) = len_pairs - 1
  /\ exists s', ms = matches files rs f s'.
Proof.
  revert s. induction n as [|n IH]; intros s; cbn [find_matches]; [done|].
  destruct (Z.eqb_spec (Z.of_nat (length (matches files rs f s))) (len_pairs - 1)).
  - intros [= <-]. eauto.
  - destruct (Z.ltb_spec (Z.of_nat (length (matches files rs f s))) (len_pairs - 1));
      [apply IH|done].
Qed.

Lemma loop_inv_step (results : list (list path)) (rs : gset string)
    (f : path) (ms : list path) (s : string) :
  loop_inv files len_pairs results rs -> f ∈ files -> Path.name f ∉ rs ->
  ms = matches files rs f s -> Z.of_nat (length ms) = len_pairs - 1 ->
  loop_inv files len_pairs (results ++ [f :: ms])
           (rs ∪ list_to_set (Path.name f :: (Path.name <$> ms))).
Proof.
  intros (Hrs & Hlen & Hin & Hnd) Hf Hfrs -> Hms.
  assert (Hcat : concat (results ++ [f :: matches files rs f s])
                 = concat results ++ f :: matches files rs f s).
  { rewrite concat_app. cbn. by rewrite app_nil_r. }
  unfold loop_inv. rewrite Hcat. split; [|split; [|split]].
  - intros nm. rewrite fmap_app, elem_of_union, elem_of_app, Hrs.
    by rewrite elem_of_list_to_set.
  - apply Forall_app. split; [done|]. constructor; [|constructor].
    cbn [length]. lia.
  - intros x [Hx|Hx]%elem_of_app; [by apply Hin|].
    apply elem_of_cons in Hx as [->|Hx]; [done|].
    by apply matches_elem in Hx as [? _].
  - intros Hfiles. rewrite fmap_app. apply NoDup_app. split; [by apply Hnd|].
    split.
    + intros nm Hold Hnew. apply Hrs in Hold.
      rewrite fmap_cons in Hnew. apply elem_of_cons in Hnew as [->|Hnew]; [done|].
      apply list_elem_of_fmap in Hnew as (x & -> & Hx).
      by apply matches_elem in Hx as (_ & ? & _).
    + rewrite fmap_cons. apply NoDup_cons. split; [|by apply matches_names_NoDup].
      intros (x & Heq & Hx)%list_elem_of_fmap.
      by apply matches_elem in Hx as (_ & _ & ?).
Qed.

Lemma group_loop_inv (todo : list path) (results results' : list (list path))
    (rs rs' : gset string) :
  (forall x, x ∈ todo -> x ∈ files) ->
  loop_inv files len_pairs results rs ->
  group_loop files len_pairs todo results rs = Ok (results', rs') ->
  loop_inv files len_pairs results' rs' /\ (forall x, x ∈ todo -> Path.name x ∈ rs') /\ rs ⊆ rs'.
Proof.
  revert results rs. induction todo as [|f todo IH]; intros results rs Htodo Hinv;
    cbn [group_loop].
  - intros [= <- <-]. split; [done|]. split; [|done]. intros x Hx. by apply elem_of_nil in Hx.
  - assert (Htodo' : forall x, x ∈ todo -> x ∈ files)
      by (intros x Hx; apply Htodo; by right).
    destruct (decide (Path.name f ∈ rs)) as [Hin|Hnin].
    + intros Hloop. destruct (IH _ _ Htodo' Hinv Hloop) as (Hinv' & Hall & Hsub).
      split; [done|]. split; [|done].
      intros x [->|Hx]%elem_of_cons; [by apply Hsub|by apply Hall].
    + destruct (find_matches files len_pairs rs f (String.length (Path.name f))
                  (Path.name f)) as [ms|e] eqn:Hfind; [|done].
      apply find_matches_Ok in Hfind as (Hlen & s & Hms).
      intros Hloop.
      assert (Hf : f ∈ files) by (apply Htodo; by left).
      pose proof (loop_inv_step results rs f ms s Hinv Hf Hnin Hms Hlen) as Hinv2.
      destruct (IH _ _ Htodo' Hinv2 Hloop) as (Hinv' & Hall & Hsub).
      split; [done|]. split; [|set_solver].
      intros x [->|Hx]%elem_of_cons; [|by apply Hall].
      apply Hsub. set_solver.
Qed.

Lemma loop_inv_init : loop_inv files len_pairs [] ∅.
Proof.
  split; [|split; [|split]]; cbn.
  - intros nm. set_solver.
  - constructor.
  - intros x Hx. by apply elem_of_nil in Hx.
  - intros _. constructor.
Qed.

End Grouping.

Lemma NoDup_fmap_inj_on {A B} (f : A -> B) (l : list A) (x y : A) :
  NoDup (f <$> l) -> x ∈ l -> y ∈ l -> f x = f y -> x = y.
Proof.
  induction l as [|a l IH]; [by intros _ ?%elem_of_nil|].
  rewrite fmap_cons, NoDup_cons. intros [Ha Hnd] Hx Hy Heq.
  apply elem_of_cons in Hx as [->|Hx]; apply elem_of_cons in Hy as [->|Hy];
    [done| | |by apply IH].
  - exfalso. apply Ha. rewrite Heq. by apply list_elem_of_fmap_2.
  - exfalso. apply Ha. rewrite <- Heq. by apply list_elem_of_fmap_2.
Qed.

Lemma size_list_to_set_le (l : list string) :
  (size (list_to_set l : gset string) <= length l)%nat.
Proof.
  induction l as [|x l IH]; cbn [list_to_set length].
  - by rewrite size_empty.
  - rewrite size_union_alt, size_singleton.
    assert (H : (size ((list_to_set l : gset string) ∖ {[x]})
                 <= size (list_to_set l : gset string))%nat)
      by (apply subseteq_size; set_solver).
    lia.
Qed.

Lemma size_list_to_set_NoDup (l : list string) :
  size (list_to_set l : gset string) = length l -> NoDup l.
Proof.
  induction l as [|x l IH]; cbn [list_to_set length]; [constructor|].
  intros Hsize. pose proof (size_list_to_set_le l) as Hle.
  destruct (decide (x ∈ l)) as [Hin|Hnin].
  - exfalso.
    assert (Heq : {[x]} ∪ list_to_set l = (list_to_set l : gset string))
      by set_solver.
    rewrite Heq in Hsize. lia.
  - apply NoDup_cons. split; [done|]. apply IH.
    rewrite size_union in Hsize by set_solver.
    rewrite size_singleton in Hsize. lia.
Qed.

Lemma group_by_prefix_Ok (files : list path) (len_pairs : Z)
    (groups : list (list path)) :
  group_by_prefix files len_pairs = Ok groups ->
  Forall (fun g => Z.of_nat (length g) = len_pairs) groups
  /\ concat groups ≡ₚ files
  /\ NoDup files.
Proof.
  unfold group_by_prefix.
  destruct (group_loop files len_pairs files [] ∅) as [[results rs]|e] eqn:Hloop;
    [|done].
  destruct (decide (size rs ≠ length files)) as [|Hsize]; [done|].
  intros [= <-]. apply dec_stable in Hsize.
  destruct (group_loop_inv files len_pairs files [] results ∅ rs)
    as ((Hrs & Hlen & Hin & Hnd) & Hall & _); [done|apply loop_inv_init|done|].
  assert (Hset : rs = list_to_set (Path.name <$> files)).
  { apply set_eq. intros nm. rewrite elem_of_list_to_set. split.
    - intros (x & -> & Hx)%Hrs%list_elem_of_fmap.
      apply list_elem_of_fmap_2. by apply Hin.
    - intros (x & -> & Hx)%list_elem_of_fmap. by apply Hall. }
  assert (Hnames : NoDup (Path.name <$> files)).
  { apply size_list_to_set_NoDup. rewrite <- Hset, Hsize. by rewrite length_fmap. }
  assert (Hfiles : NoDup files) by (by eapply NoDup_fmap_1).
  split; [done|]. split; [|done].
  apply NoDup_Permutation; [by eapply NoDup_fmap_1, Hnd|done|].
  intros x. split; [apply Hin|]. intros Hx.
  assert (Hnm : Path.name x ∈ Path.name <$> concat results) by (by apply Hrs, Hall).
  apply list_elem_of_fmap in Hnm as (y & Heq & Hy).
  assert (x = y); [|by subst].
  eapply (NoDup_fmap_inj_on Path.name files); eauto.
Qed.

Lemma find_matches_too_many (files : list path) (len_pairs : Z)
    (rs : gset string) (f : path) (n : nat) (s : string) :
  len_pairs - 1 < Z.of_nat (length (matches files rs f s)) ->
  find_matches files len_pairs rs f (S n) s
  = Raise (ValueError (msg_unequal len_pairs f
                         (Z.of_nat (length (matches files rs f s))))).
Proof.
  intros Hgt. cbn [find_matches].
  destruct (Z.eqb_spec (Z.of_nat (length (matches files rs f s))) (len_pairs - 1));
    [lia|].
  destruct (Z.ltb_spec (Z.of_nat (length (matches files rs f s))) (len_pairs - 1));
    [lia|done].
Qed.

Lemma find_matches_exhausted (files : list path) (len_pairs : Z)
    (rs : gset string) (f : path) (n : nat) (s : string) :
  (forall j, (j < n)%nat ->
     Z.of_nat (length (matches files rs f (Nat.iter j Py.drop_last s)))
     < len_pairs - 1) ->
  find_matches files len_pairs rs f n s = Raise (ValueError (msg_no_adequate f)).
Proof.
  revert s. induction n as [|n IH]; intros s Hless; cbn [find_matches]; [done|].
  pose proof (Hless 0%nat ltac:(lia)) as H0. cbn [Nat.iter nat_rect] in H0.
  destruct (Z.eqb_spec (Z.of_nat (length (matches files rs f s))) (len_pairs - 1));
    [lia|].
  destruct (Z.ltb_spec (Z.of_nat (length (matches files rs f s))) (len_pairs - 1));
    [|lia].
  apply IH. intros j Hj. rewrite <- Nat.iter_succ_r. apply Hless. lia.
Qed.

Lemma find_matches_Raise (files : list path) (len_pairs : Z)
    (rs : gset string) (f : path) (n : nat) (s : string) (e : exn) :
  find_matches files len_pairs rs f n s = Raise e -> exists msg, e = ValueError msg.
Proof.
  revert s. induction n as [|n IH]; intros s; cbn [find_matches].
  - intros [= <-]. eauto.
  - destruct (_ =? _); [done|]. destruct (_ <? _); [apply IH|].
    intros [= <-]. eauto.
Qed.

(** C4.  [group_by_prefix] either returns groups that all have
    [len_pairs] members and together hold every input file exactly
    once, or raises a [ValueError].  It raises when the search for a
    file meets a candidate prefix with more than [len_pairs - 1] other
    ungrouped files, when the prefixes of a file are exhausted with
    fewer than [len_pairs - 1] matches at each, and when the number of
    grouped files differs from the number of input files at the end. *)
Theorem group_by_prefix_spec (files : list path) (len_pairs : Z) :
  (forall groups,
     group_by_prefix files len_pairs = Ok groups ->
     Forall (fun g => Z.of_nat (length g) = len_pairs) groups
     /\ concat groups ≡ₚ files /\ NoDup (concat groups))
  /\ (forall e,
       group_by_prefix files len_pairs = Raise e -> exists msg, e = ValueError msg)
  /\ (forall rs f n s,
       len_pairs - 1 < Z.of_nat (length (matches files rs f s)) ->
       find_matches files len_pairs rs f (S n) s
       = Raise (ValueError (msg_unequal len_pairs f
                              (Z.of_nat (length (matches files rs f s))))))
  /\ (forall rs f n s,
       (forall j, (j < n)%nat ->
          Z.of_nat (length (matches files rs f (Nat.iter j Py.drop_last s)))
          < len_pairs - 1) ->
       find_matches files len_pairs rs f n s
       = Raise (ValueError (msg_no_adequate f)))
  /\ (forall todo results rs f e,
       Path.name f ∉ rs ->
       find_matches files len_pairs rs f (String.length (Path.name f))
         (Path.name f) = Raise e ->
       group_loop files len_pairs (f :: todo) results rs = Raise e)
  /\ (forall e,
       group_loop files len_pairs files [] ∅ = Raise e ->
       group_by_prefix files len_pairs = Raise e)
  /\ (forall results rs,
       group_loop files len_pairs files [] ∅ = Ok (results, rs) ->
       length (concat results) ≠ length files ->
       group_by_prefix files len_pairs
       = Raise (ValueError (msg_not_enough (Z.of_nat (size rs))
                              (Z.of_nat (length files))))).
Proof.
  split; [|split; [|split; [|split; [|split; [|split]]]]].
  - intros groups Hok.
    destruct (group_by_prefix_Ok files len_pairs groups Hok) as (Hlen & Hperm & Hnd).
    split; [done|]. split; [done|]. by rewrite Hperm.
  - intros e. unfold group_by_prefix.
    assert (Hloop : forall todo results rs e',
              group_loop files len_pairs todo results rs = Raise e' ->
              exists msg, e' = ValueError msg).
    { induction todo as [|f todo IH]; intros results rs e'; cbn [group_loop];
        [done|].
      destruct (decide (Path.name f ∈ rs)); [apply IH|].
      destruct (find_matches files len_pairs rs f (String.length (Path.name f))
                  (Path.name f)) as [ms|e0] eqn:Hfind; [apply IH|].
      intros [= <-]. by eapply find_matches_Raise. }
    destruct (group_loop files len_pairs files [] ∅) as [[results rs]|e0] eqn:Hl.
    + destruct (decide (size rs ≠ length files)); [|done]. intros [= <-]. eauto.
    + intros [= <-]. by eapply Hloop.
  - apply find_matches_too_many.
  - apply find_matches_exhausted.
  - intros todo results rs f e Hnin Hfind. cbn [group_loop].
    destruct (decide (Path.name f ∈ rs)); [done|]. by rewrite Hfind.
  - intros e Hloop. unfold group_by_prefix. by rewrite Hloop.
  - intros results rs Hloop Hne. unfold group_by_prefix. rewrite Hloop.
    destruct (decide (size rs ≠ length files)) as [|Hsize]; [done|].
    exfalso. apply Hne.
    destruct (group_by_prefix_Ok files len_pairs results) as (_ & Hperm & _).
    { unfold group_by_prefix. rewrite Hloop.
      destruct (decide (size rs ≠ length files)); done. }
    by rewrite Hperm.
Qed.

(** The example of the specification: four files, groups of two. *)
Example group_by_prefix_pairs :
  group_by_prefix
    ["in/c/img001_a.jpg"; "in/c/img001_b.jpg";
     "in/c/img002_a.jpg"; "in/c/img002_b.jpg"] 2
  = Ok [["in/c/img001_a.jpg"; "in/c/img001_b.jpg"];
        ["in/c/img002_a.jpg"; "in/c/img002_b.jpg"]].
Proof. vm_compute. reflexivity. Qed.

Example group_by_prefix_too_many :
  group_by_prefix ["a1.jpg"; "a55.jpg"; "a56.jpg"; "a9.jpg"] 2
  = Raise (ValueError
      "The length of pairs has to be equal. Coudn't find 1 matches for a1.jpg. Found 3 matches.").
Proof. vm_compute. reflexivity. Qed.

Example group_by_prefix_no_match :
  group_by_prefix ["a.jpg"; "b.png"] 2
  = Raise (ValueError "No adequate matches found for a.jpg.").
Proof. vm_compute. reflexivity. Qed.

Example group_by_prefix_shortfall :
  group_by_prefix ["d/a1.jpg"; "s1/a2.jpg"; "s2/a2.jpg"] 3
  = Raise (ValueError "Could not find enough matches (2) for all files (3)").
Proof. vm_compute. reflexivity. Qed.

(** ** Determinism *)

Lemma setup_files_grouped (R : rng) (class_dir : path) (seed k : Z) (w : world R) :
  setup_files R class_dir seed (Some k) w
  = let w0 := World (w_dirs w) (w_files w) (rng_seed R seed) (w_trace w) (w_late w) in
    match listing R class_dir w with
    | [] => (Ok [], w0)
    | _ :: _ => (Raise (AttributeError "'str' object has no attribute 'name'"), w0)
    end.
Proof.
  unfold setup_files, bind, seed_rng, lift. rewrite list_files_listing.
  change (listing R class_dir (World _ _ _ _ _)) with (listing R class_dir w).
  by destruct (listing R class_dir w).
Qed.

(** C2.  With grouping active no plan is produced.  [list_files]
    returns [str] values and [group_by_prefix] reads [f.name] of the
    first of them: for every class that lists a file, every seed and
    every group size, [setup_files] raises [AttributeError] once the
    generator is seeded, and so does the plan of the class; nothing is
    sorted or shuffled.  (Without grouping the plan is the same for the
    same seed and the same files, whatever the listing order and the
    state of the generator: [setup_files_same_files_same_order].) *)
Theorem grouped_setup_raises (R : rng) (class_dir : path) (seed k : Z)
    (ratio : list PyFloat.float) (w : world R) :
  listing R class_dir w ≠ [] ->
  setup_files R class_dir seed (Some k) w
  = (Raise (AttributeError "'str' object has no attribute 'name'"),
     World (w_dirs w) (w_files w) (rng_seed R seed) (w_trace w) (w_late w))
  /\ class_plan R class_dir seed ratio (Some k) w
     = Raise (AttributeError "'str' object has no attribute 'name'").
Proof.
  intros Hne. unfold class_plan. rewrite setup_files_grouped. cbn zeta.
  by destruct (listing R class_dir w).
Qed.

Lemma grouped_setup_raises_witness :
  listing lcg "data/c" (four_pairs lcg) ≠ []
  /\ class_plan lcg "data/c" 1337 ratio_half (Some 2) (four_pairs lcg)
     = Raise (AttributeError "'str' object has no attribute 'name'").
Proof.
  assert (H : listing lcg "data/c" (four_pairs lcg) ≠ [])
    by (vm_compute; discriminate).
  split; [exact H|].
  exact (proj2 (grouped_setup_raises lcg "data/c" 1337 2 ratio_half
                  (four_pairs lcg) H)).
Defined.

(** C5.  With grouping active no group reaches the transfer.  For a
    class that lists a file, the split of the class raises the
    [AttributeError] of [setup_files], in ratio mode (copying or
    moving) and in fixed mode alike, with the generator seeded and
    nothing else changed: no group is formed, assigned to a subset or
    transferred. *)
Theorem grouped_split_raises (R : rng) (class_dir output : path)
    (ratio : list PyFloat.float) (kind : seq_kind) (fx : list Z) (seed k : Z)
    (move : bool) (max_workers prog_bar : nat) (w : world R) :
  listing R class_dir w ≠ [] ->
  let e := AttributeError "'str' object has no attribute 'name'" in
  let w0 := World (w_dirs w) (w_files w) (rng_seed R seed) (w_trace w)
              (w_late w) in
  split_class_dir_ratio R class_dir output ratio seed move max_workers (Some k) w
  = (Raise e, w0)
  /\ split_class_dir_fixed R class_dir output kind fx seed prog_bar (Some k) w
     = (Raise e, w0).
Proof.
  intros Hne e w0.
  unfold split_class_dir_ratio, split_class_dir_fixed, bind.
  rewrite setup_files_grouped. cbn zeta.
  by destruct (listing R class_dir w).
Qed.

Lemma grouped_split_raises_witness :
  listing lcg "data/c" (four_pairs lcg) ≠ []
  /\ fst (split_class_dir_ratio lcg "data/c" "output" ratio_half 1337 false 1
            (Some 2) (four_pairs lcg))
     = Raise (AttributeError "'str' object has no attribute 'name'").
Proof.
  assert (H : listing lcg "data/c" (four_pairs lcg) ≠ [])
    by (vm_compute; discriminate).
  split; [exact H|].
  exact (f_equal fst
           (proj1 (grouped_split_raises lcg "data/c" "output" ratio_half PyTuple
                     [1] 1337 2 false 1%nat 0%nat (four_pairs lcg) H))).
Defined.

(** C6.  A run that leaves files out.  Ratio mode at (0.5, 0.5) with
    groups of two, on the class of four pairs: the run raises
    [AttributeError] while the first class is set up, no directory is
    made and no file is copied, so none of the eight files listed is in
    the output tree. *)
Lemma grouped_run_copies_nothing :
  let w := four_pairs lcg in
  let run := ratio lcg "data" "output" 1337 ratio_half false 1 (Some 2) w in
  length (listing lcg "data/c" w) = 8%nat
  /\ fst run = Raise (AttributeError "'str' object has no attribute 'name'")
  /\ w_trace (snd run) = []
  /\ w_files (snd run) = w_files w
  /\ w_dirs (snd run) = w_dirs w.
Proof. cbn zeta. repeat split; vm_compute; reflexivity. Qed.
(** ** Oversampling *)

Lemma max_spec (lens : list Z) (m : Z) :
  Py.max lens = Ok m -> m ∈ lens /\ Forall (fun x => x <= m) lens.
Proof.
  destruct lens as [|x lens]; [done|]. cbn [Py.max]. intros [= <-].
  assert (H : forall l a, (fold_left Z.max l a = a \/ fold_left Z.max l a ∈ l)
                          /\ a <= fold_left Z.max l a
                          /\ Forall (fun y => y <= fold_left Z.max l a) l).
  { induction l as [|y l IH]; intros a; cbn [fold_left].
    - split; [by left|]. split; [lia|constructor].
    - destruct (IH (Z.max a y)) as (Hin & Hle & Hall).
      split; [|split; [lia|constructor; [lia|done]]].
      destruct Hin as [Heq|Hin]; [|right; by right].
      rewrite Heq. destruct (Z.max_spec a y) as [[_ ->]|[_ ->]]; [right; by left|by left]. }
  destruct (H lens x) as (Hin & Hle & Hall).
  split; [|by constructor].
  destruct Hin as [->|Hin]; [by left|by right].
Qed.

Section OversampleClass.
Context (R : rng).

Lemma choice_nonempty {A} (pool : list A) (w : world R) :
  pool ≠ [] ->
  exists f, pool !! fst (rng_below R (length pool) (w_rng w)) = Some f
    /\ choice R pool w
       = (Ok f, World (w_dirs w) (w_files w)
                  (snd (rng_below R (length pool) (w_rng w)))
                  (w_trace w) (w_late w)).
Proof.
  intros Hne. unfold choice. destruct pool as [|a pool]; [done|].
  pose proof (rng_below_lt R (length (a :: pool)) (w_rng w)) as Hlt.
  destruct (rng_below R (length (a :: pool)) (w_rng w)) as [i st'].
  cbn [fst snd] in *.
  destruct (lookup_lt_is_Some_2 (a :: pool) i) as [f Hf];
    [apply Hlt; cbn; lia|].
  exists f. by rewrite Hf.
Qed.

Lemma duplicate_run (pool : list string) (i : Z) (w : world R) :
  pool ≠ [] ->
  duplicate R pool i w
  = (Raise (AttributeError "'str' object has no attribute 'stem'"),
     World (w_dirs w) (w_files w)
       (snd (rng_below R (length pool) (w_rng w))) (w_trace w) (w_late w)).
Proof.
  intros Hne. unfold duplicate, bind.
  destruct (choice_nonempty pool w Hne) as (f & _ & ->). done.
Qed.

Lemma oversample_class_unfold (output class_dir : path) (max_len len : Z)
    (w : world R) :
  oversample_class R output max_len (len, class_dir) w
  = for_each R (Py.range (max_len - len))
      (duplicate R (listing R (Path.join3 output "train"
                                 (snd (Path.split class_dir))) w)) w.
Proof. reflexivity. Qed.


End OversampleClass.

(** C7.  Oversampling of one class in fixed mode.  [max_len] is the
    largest of the class totals returned by the splits.  For a class
    below [max_len] whose train directory lists a file, the first
    round of the loop draws one file with [random.choice], from the
    generator state the run has reached, and then raises
    [AttributeError]: the file drawn is a [str], and [f_orig.stem] is
    read to build the name of the duplicate.  No duplicate is made:
    directories, files and the log of calls are as before the loop. *)
Theorem oversample_class_raises (R : rng) (output class_dir : path)
    (max_len length : Z) (w : world R) :
  let train_dir := Path.join3 output "train" (snd (Path.split class_dir)) in
  let pool := listing R train_dir w in
  length < max_len ->
  pool ≠ [] ->
  (forall lens m, Py.max lens = Ok m -> m ∈ lens /\ Forall (fun x => x <= m) lens)
  /\ oversample_class R output max_len (length, class_dir) w
     = (Raise (AttributeError "'str' object has no attribute 'stem'"),
        World (w_dirs w) (w_files w)
          (snd (rng_below R (Datatypes.length pool) (w_rng w)))
          (w_trace w) (w_late w)).
Proof.
  intros train_dir pool Hlt Hne. split; [apply max_spec|].
  rewrite oversample_class_unfold. fold train_dir pool. unfold Py.range.
  destruct (Z.to_nat (max_len - length)) as [|n] eqn:Hn; [lia|].
  cbn [seq fmap list_fmap for_each]. unfold bind.
  by rewrite duplicate_run.
Qed.

Lemma oversample_class_raises_witness :
  3 < 5
  /\ listing lcg "output/train/small" small_and_big_split ≠ []
  /\ fst (oversample_class lcg "output" 5 (3, "data/small") small_and_big_split)
     = Raise (AttributeError "'str' object has no attribute 'stem'").
Proof.
  assert (H1 : 3 < 5) by lia.
  assert (H2 : listing lcg (Path.join3 "output" "train"
                              (snd (Path.split "data/small")))
                 small_and_big_split ≠ [])
    by (vm_compute; discriminate).
  split; [exact H1|]. split; [exact H2|].
  exact (f_equal fst (proj2 (oversample_class_raises lcg "output" "data/small"
                               5 3 small_and_big_split H1 H2))).
Defined.

(** The example of the specification: classes of 80 and 100 files at
    fixed counts (10, 10).  The split gives the smaller class 60 train
    files; the oversampling raises at its first duplication and the
    train directory keeps its 60 files. *)
Example oversample_80_100 :
  let run := fixed lcg "data" "output" 1337 (FixedSeq PyTuple [10; 10]) true
               None classes_80_100 in
  fst run = Raise (AttributeError "'str' object has no attribute 'stem'")
  /\ (Datatypes.length (listing lcg "output/train/small" (snd run)),
      Datatypes.length (listing lcg "output/train/big" (snd run)),
      Datatypes.length (listing lcg "output/val/small" (snd run)),
      Datatypes.length (listing lcg "output/test/small" (snd run)))
     = (60, 80, 10, 10)%nat.
Proof. split; vm_compute; reflexivity. Qed.

(** ** The loop over tuples in [copy_files] and [move_files] *)

Section TupleLoop.
Context (R : rng).

Lemma bind_ret_l {A B} (a : A) (k : A -> M R B) (w : world R) :
  bind R (ret R a) k w = k a w.
Proof. reflexivity. Qed.

Lemma bind_assoc {A B C} (m : M R A) (k : A -> M R B) (h : B -> M R C)
    (w : world R) :
  bind R (bind R m k) h w = bind R m (fun a => bind R (k a) h) w.
Proof. unfold bind. by destruct (m w) as [[a|e] w']. Qed.

Lemma bind_ext {A B} (m : M R A) (k k' : A -> M R B) (w : world R) :
  (forall a w', k a w' = k' a w') -> bind R m k w = bind R m k' w.
Proof. intros H. unfold bind. destruct (m w) as [[a|e] w']; [apply H|done]. Qed.

Lemma tuple_loop_singles (transfer : path -> M R unit) (ps : list path)
    (fuel i : nat) (w : world R) :
  tuple_loop R fuel transfer i (Single <$> ps) w = (Ok (Single <$> ps), w).
Proof.
  revert i. induction fuel as [|fuel IH]; intros i; cbn [tuple_loop]; [done|].
  rewrite list_lookup_fmap.
  destruct (ps !! i) as [p|]; cbn; [apply IH|done].
Qed.

Lemma list_remove_middle (kept rest : list (list path)) (x : list path) :
  x ∉ kept ->
  list_remove (Tuple x) (Tuple <$> (kept ++ x :: rest)) = Tuple <$> (kept ++ rest).
Proof.
  induction kept as [|y kept IH]; intros Hx; cbn [app fmap list_fmap list_remove].
  - by destruct (decide (Tuple x = Tuple x)).
  - destruct (decide (Tuple y = Tuple x)) as [[= ->]|_].
    + exfalso. apply Hx. by left.
    + f_equal. apply IH. intros ?. apply Hx. by right.
Qed.

Lemma tuple_loop_skips_from (transfer : path -> M R unit)
    (fuel : nat) (kept rest : list (list path)) (w : world R) :
  NoDup (kept ++ rest) -> (length rest <= fuel)%nat ->
  tuple_loop R fuel transfer (length kept) (Tuple <$> (kept ++ rest)) w
  = bind R (for_each R (evens rest) (fun g => for_each R g transfer))
      (fun _ => ret R (Tuple <$> (kept ++ odds rest))) w.
Proof.
  revert kept rest w. induction fuel as [|fuel IH]; intros kept rest w Hnd Hlen.
  - destruct rest; [|cbn in Hlen; lia]. cbn. by rewrite !app_nil_r.
  - cbn [tuple_loop]. rewrite list_lookup_fmap.
    destruct rest as [|x rest].
    + rewrite !app_nil_r, lookup_ge_None_2 by lia. by cbn.
    + rewrite lookup_app_r, Nat.sub_diag by lia. cbn [lookup list_lookup fmap option_fmap option_map].
      assert (Hx : x ∉ kept).
      { apply NoDup_app in Hnd as (_ & Hdis & _). intros Hin.
        apply (Hdis x Hin). by left. }
      rewrite list_remove_middle by done.
      assert (Hnd' : NoDup (kept ++ rest)).
      { apply NoDup_app in Hnd as (Hk & Hdis & Hr). apply NoDup_cons in Hr as [_ Hr].
        apply NoDup_app. split; [done|]. split; [|done].
        intros z Hz Hz'. apply (Hdis z Hz). by right. }
      destruct rest as [|y rest].
      * cbn [evens odds for_each]. rewrite app_nil_r.
        rewrite bind_assoc. apply bind_ext. intros [] w'.
        rewrite bind_ret_l.
        destruct fuel as [|fuel']; cbn [tuple_loop]; [done|].
        rewrite lookup_ge_None_2; [done|]. rewrite length_fmap. lia.
      * cbn [evens odds for_each].
        rewrite !bind_assoc. apply bind_ext. intros [] w'.
        replace (kept ++ y :: rest) with ((kept ++ [y]) ++ rest)
          by (by rewrite <- app_assoc).
        replace (length kept + 1)%nat with (length (kept ++ [y]))
          by (rewrite length_app; cbn; lia).
        rewrite IH; [|by rewrite <- app_assoc|cbn in Hlen; lia].
        by rewrite <- !app_assoc.
Qed.

End TupleLoop.


Lemma bind_cong (R : rng) {A B} (m m' : M R A) (k : A -> M R B) (w : world R) :
  m w = m' w -> bind R m k w = bind R m' k w.
Proof. intros H. unfold bind. by rewrite H. Qed.

Lemma tuple_loop_skips (R : rng) (transfer : path -> M R unit)
    (ts : list (list path)) (w : world R) :
  NoDup ts ->
  tuple_loop R (length (Tuple <$> ts)) transfer 0 (Tuple <$> ts) w
  = bind R (for_each R (evens ts) (fun g => for_each R g transfer))
      (fun _ => ret R (Tuple <$> odds ts)) w.
Proof.
  intros Hnd.
  apply (tuple_loop_skips_from R transfer (length (Tuple <$> ts)) [] ts w Hnd).
  by rewrite length_fmap.
Qed.

Lemma run_late_idle (R : rng) (worker : entry -> M R unit) (n : nat)
    (jobs : list entry) (w : world R) :
  (forall j w', j ∈ jobs -> snd (worker j w') = w') ->
  run_late R n worker jobs w = w.
Proof.
  revert jobs w. induction n as [|n IH]; intros [|j jobs] w Hidle; cbn; try done.
  rewrite Hidle by (by left). apply IH. intros j' w' Hj. apply Hidle. by right.
Qed.

Lemma run_late_nil (R : rng) (worker : entry -> M R unit) (n : nat)
    (w : world R) :
  run_late R n worker [] w = w.
Proof. by destruct n. Qed.

Lemma run_jobs_all_raise (R : rng) (worker : entry -> M R unit)
    (j : entry) (jobs : list entry) (w : world R) :
  (forall j' w', j' ∈ j :: jobs -> exists e, worker j' w' = (Raise e, w')) ->
  run_jobs R worker (j :: jobs) w = worker j w.
Proof.
  intros Hall. cbn [run_jobs].
  destruct (Hall j w) as [e ->]; [by left|]. f_equal.
  apply run_late_idle. intros j' w' Hj.
  destruct (Hall j' w') as [e' ->]; [by right|done].
Qed.

(** X13.  [copy_files] on a subset of distinct tuples (claims C5 and
    C6 are about this loop).  The loop removes from the list it
    iterates, so it visits the tuples at the positions 0, 2, 4, ...
    only: once the subset directory is created, the members of these
    tuples are copied into it, in order, and the tuples at the
    positions 1, 3, 5, ... stay in the list.  When one stays, the
    worker [_copy] is called on a tuple and raises [AttributeError]: a
    subset of two or more groups is never copied in full. *)
Theorem copy_files_every_second_group (R : rng) (ts : list (list path))
    (folder_type class_dir output : path) (max_workers : nat) (w : world R) :
  NoDup ts ->
  let full_path := Path.join3 output folder_type (snd (Path.split class_dir)) in
  copy_files R [(Tuple <$> ts, folder_type)] class_dir output max_workers w
  = bind R (makedirs R full_path) (fun _ =>
    bind R (for_each R (evens ts)
              (fun g => for_each R g (fun x => copy2 R x full_path))) (fun _ =>
    match odds ts with
    | [] => ret R tt
    | _ :: _ => raise R (AttributeError "'tuple' object has no attribute 'split'")
    end)) w.
Proof.
  intros Hnd full_path. unfold copy_files. cbn [for_each]. fold full_path.
  rewrite bind_assoc. apply bind_ext. intros [] w1.
  rewrite bind_assoc.
  rewrite (bind_cong R _ _ _ w1 (tuple_loop_skips R _ ts w1 Hnd)).
  rewrite !bind_assoc. apply bind_ext. intros [] w2.
  rewrite bind_ret_l. cbn [app]. unfold thread_map.
  destruct (odds ts) as [|g gs]; [done|].
  change (Tuple <$> g :: gs) with (Tuple g :: (Tuple <$> gs)).
  unfold bind at 1. rewrite run_jobs_all_raise; [done|].
  intros j w' Hj.
  assert (Ht : exists x, j = Tuple x).
  { apply elem_of_cons in Hj as [->|Hj]; [by eexists|].
    apply list_elem_of_fmap in Hj as (x & -> & _). by eexists. }
  destruct Ht as [x ->]. by eexists.
Qed.

(** X14.  [move_files] on a subset of distinct tuples: as in
    [copy_files], the tuples at the positions 0, 2, 4, ... are moved
    into the subset directory, member by member, and when a tuple stays
    in the list the worker [_move] hands it to [shutil.move], which
    raises [TypeError] (from [os.stat] when the subset directory is
    there, from [os.rename] otherwise); the jobs that follow are tuples
    too and change nothing. *)
Theorem move_files_every_second_group (R : rng) (ts : list (list path))
    (folder_type class_dir output : path) (max_workers : nat) (w : world R) :
  NoDup ts ->
  let full_path := Path.join3 output folder_type (snd (Path.split class_dir)) in
  move_files R [(Tuple <$> ts, folder_type)] class_dir output max_workers w
  = bind R (makedirs R full_path) (fun _ =>
    bind R (for_each R (evens ts)
              (fun g => for_each R g (fun x => move R x full_path))) (fun _ =>
    match odds ts with
    | [] => ret R tt
    | _ :: _ =>
        fun w' =>
          (Raise (TypeError
                    (if isdir R full_path w'
                     then "stat: path should be string, bytes, os.PathLike or integer, not tuple"
                     else "rename: src should be string, bytes or os.PathLike, not tuple")),
           w')
    end)) w.
Proof.
  intros Hnd full_path. unfold move_files. cbn [for_each]. fold full_path.
  rewrite bind_assoc. apply bind_ext. intros [] w1.
  rewrite bind_assoc.
  rewrite (bind_cong R _ _ _ w1 (tuple_loop_skips R _ ts w1 Hnd)).
  rewrite !bind_assoc. apply bind_ext. intros [] w2.
  rewrite bind_ret_l. cbn [app]. unfold thread_map.
  destruct (odds ts) as [|g gs]; [done|].
  change (Tuple <$> g :: gs) with (Tuple g :: (Tuple <$> gs)).
  unfold bind at 1. rewrite run_jobs_all_raise.
  - cbn [_move]. by destruct (isdir R full_path w2).
  - intros j w' Hj.
    assert (Ht : exists x, j = Tuple x).
    { apply elem_of_cons in Hj as [->|Hj]; [by eexists|].
      apply list_elem_of_fmap in Hj as (x & -> & _). by eexists. }
    destruct Ht as [x ->]. cbn [_move].
    destruct (isdir R full_path w'); by eexists.
Qed.

Lemma copy_files_every_second_group_witness :
  NoDup three_pairs
  /\ copy_files lcg [(Tuple <$> three_pairs, "train")] "data/c" "output" 1
       (four_pairs lcg)
     = bind lcg (makedirs lcg "output/train/c") (fun _ =>
       bind lcg (for_each lcg (evens three_pairs)
                   (fun g => for_each lcg g
                               (fun x => copy2 lcg x "output/train/c")))
         (fun _ => raise lcg
                     (AttributeError "'tuple' object has no attribute 'split'")))
       (four_pairs lcg).
Proof.
  assert (H : NoDup three_pairs) by by_computation.
  split; [exact H|].
  exact (copy_files_every_second_group lcg three_pairs "train" "data/c" "output"
           1%nat (four_pairs lcg) H).
Defined.

Example copy_files_three_groups :
  let run := copy_files lcg [(Tuple <$> three_pairs, "train")] "data/c" "output"
               1 (four_pairs lcg) in
  fst run = Raise (AttributeError "'tuple' object has no attribute 'split'")
  /\ w_trace (snd run)
     = [Mkdir "output/train/c";
        Copy2 "data/c/img001_a.jpg" "output/train/c/img001_a.jpg";
        Copy2 "data/c/img001_b.jpg" "output/train/c/img001_b.jpg";
        Copy2 "data/c/img003_a.jpg" "output/train/c/img003_a.jpg";
        Copy2 "data/c/img003_b.jpg" "output/train/c/img003_b.jpg"].
Proof. split; vm_compute; reflexivity. Qed.

Lemma move_files_every_second_group_witness :
  NoDup three_pairs
  /\ fst (move_files lcg [(Tuple <$> three_pairs, "train")] "data/c" "output" 1
            (four_pairs lcg))
     = Raise (TypeError "stat: path should be string, bytes, os.PathLike or integer, not tuple").
Proof.
  assert (H : NoDup three_pairs) by by_computation.
  split; [exact H|].
  pose proof (move_files_every_second_group lcg three_pairs "train" "data/c"
                "output" 1%nat (four_pairs lcg) H) as E.
  refine (eq_trans (f_equal fst E) _). vm_compute. reflexivity.
Defined.
(** ** The relative path computed by [_copy] *)

Lemma after_first_unfold (sep s : string) :
  Py.after_first sep s
  = if String.prefix sep s then Some (Py.string_drop (String.length sep) s)
    else match s with
         | "" => None
         | String _ s' => Py.after_first sep s'
         end.
Proof. by destruct s. Qed.

Lemma string_drop_app (p r : string) :
  Py.string_drop (String.length p) (p +:+ r) = r.
Proof. induction p as [|a p IH]; [by destruct r|]. by rewrite string_app_cons. Qed.

Lemma prefix_app_self (p r : string) : String.prefix p (p +:+ r) = true.
Proof. apply (startswith_app (p +:+ r) p). by exists r. Qed.

Lemma prefix_shorten (p x y : string) :
  String.prefix p (x +:+ y) = true ->
  (String.length p <= String.length x)%nat ->
  String.prefix p x = true.
Proof.
  revert x. induction p as [|a p IH]; intros x Hp Hlen; [by destruct x|].
  destruct x as [|b x]; [cbn in Hlen; lia|].
  rewrite string_app_cons in Hp. cbn [String.prefix] in *.
  destruct (ascii_dec a b); [|done]. apply IH; [done|]. cbn in Hlen. lia.
Qed.

Lemma drop_last_snoc (s : string) :
  s ≠ "" -> exists c, s = Py.drop_last s +:+ String c "".
Proof.
  induction s as [|a s IH]; [done|]. intros _.
  destruct s as [|b s]; [by exists a|].
  destruct IH as [c Hc]; [done|]. exists c.
  change (Py.drop_last (String a (String b s)))
    with (String a (Py.drop_last (String b s))).
  by rewrite string_app_cons, <- Hc.
Qed.

Lemma drop_last_length (s : string) :
  s ≠ "" -> S (String.length (Py.drop_last s)) = String.length s.
Proof.
  intros Hs. destruct (drop_last_snoc s Hs) as [c Hc].
  rewrite Hc at 2. rewrite string_app_length. cbn. lia.
Qed.

(** When [sep] does not occur in [base] followed by all but the last
    character of [sep], its first occurrence in [base ++ sep ++ rel] is
    the one written out. *)
Lemma after_first_first_occurrence (sep base rel : string) :
  sep ≠ "" ->
  Py.after_first sep (base +:+ Py.drop_last sep) = None ->
  Py.after_first sep (base +:+ sep +:+ rel) = Some rel.
Proof.
  intros Hsep. induction base as [|c b IH]; intros Hnone.
  - rewrite string_app_nil_l, after_first_unfold, prefix_app_self.
    by rewrite string_drop_app.
  - rewrite string_app_cons in *. rewrite after_first_unfold in Hnone.
    destruct (String.prefix sep (String c (b +:+ Py.drop_last sep))) eqn:Hp;
      [done|].
    rewrite after_first_unfold.
    destruct (String.prefix sep (String c (b +:+ sep +:+ rel))) eqn:Hp';
      [|by apply IH].
    exfalso. destruct (drop_last_snoc sep Hsep) as [l Hl].
    assert (Heq : String c (b +:+ sep +:+ rel)
                  = String c (b +:+ Py.drop_last sep) +:+ (String l "" +:+ rel)).
    { rewrite string_app_cons. f_equal. rewrite Hl at 1.
      by rewrite !string_app_assoc. }
    rewrite Heq in Hp'. apply prefix_shorten in Hp'; [congruence|].
    cbn [String.length]. rewrite string_app_length.
    pose proof (drop_last_length sep Hsep). lia.
Qed.

(** X12.  The worker [_copy] keeps the path below the class
    directory.  For a file [base/<class>/rel] in which [/<class>/] does
    not occur earlier and [rel] is not empty, it creates the directory
    of [full_path/rel] and copies the file to [full_path/rel]. *)
Theorem _copy_keeps_relative_path (R : rng) (base rel : path)
    (class_name : string) (full_path : path) (w : world R) :
  let sep := "/" +:+ class_name +:+ "/" in
  let f := base +:+ sep +:+ rel in
  Py.after_first sep (base +:+ Py.drop_last sep) = None ->
  rel ≠ "" ->
  _copy R (Single f) class_name full_path w
  = bind R (makedirs R (Path.dirname (Path.join full_path rel)))
      (fun _ => copy2 R f (Path.join full_path rel)) w.
Proof.
  intros sep f Hfirst Hrel. unfold _copy. fold sep.
  unfold Py.split1_last. fold f.
  unfold f. rewrite (after_first_first_occurrence sep base rel); [|done|done].
  by destruct (String.eqb_spec rel "").
Qed.

Lemma _copy_keeps_relative_path_witness :
  Py.after_first "/cats/" ("data" +:+ Py.drop_last "/cats/") = None
  /\ "sub/c.jpg" ≠ ""
  /\ _copy lcg (Single "data/cats/sub/c.jpg") "cats" "output/train/cats" (nested lcg)
     = bind lcg (makedirs lcg "output/train/cats/sub")
         (fun _ => copy2 lcg "data/cats/sub/c.jpg" "output/train/cats/sub/c.jpg")
         (nested lcg).
Proof.
  split; [reflexivity|]. split; [discriminate|].
  apply (_copy_keeps_relative_path lcg "data" "sub/c.jpg" "cats"
           "output/train/cats" (nested lcg)); [reflexivity|discriminate].
Defined.
(** ** Edge cases of the slices and of the loops *)

Lemma bound_le (n : nat) (i : Z) : (Py.bound n i <= n)%nat.
Proof. unfold Py.bound. destruct (Z.ltb_spec i 0); lia. Qed.

(** X8.  [split_files] at any pair of indices, negative ones and ones
    beyond the length included (a slice bound is clamped as Python
    does).  Without a test subset, train and val in order are the
    sequence again.  With a test subset they are the sequence again
    when the clamped train index is not beyond the clamped val index;
    when it is beyond, the subsets together hold more entries than the
    sequence, by the distance of the two clamped indices. *)
Theorem split_files_partition (files : list entry) (a b : Z) :
  let n := length files in
  concat (split_files files a b false).*1 = files
  /\ ((Py.bound n a <= Py.bound n b)%nat ->
      concat (split_files files a b true).*1 = files)
  /\ ((Py.bound n b < Py.bound n a)%nat ->
      length (concat (split_files files a b true).*1)
      = (n + (Py.bound n a - Py.bound n b))%nat).
Proof.
  intros n. unfold split_files, Py.slice_to, Py.slice_from, Py.slice. fold n.
  cbn [app fmap list_fmap fst concat]. rewrite !app_nil_r.
  pose proof (bound_le n a) as Ha. pose proof (bound_le n b) as Hb.
  split; [apply take_drop|]. split.
  - intros Hab.
    replace (take (Py.bound n a) files)
      with (take (Py.bound n a) (take (Py.bound n b) files))
      by (rewrite take_take; f_equal; lia).
    rewrite app_assoc, take_drop. apply take_drop.
  - intros Hba. rewrite !length_app, !length_drop, !length_take. fold n. lia.
Qed.

(** X20.  The oversampling of one class at its limits.  A class whose
    total is not below [max_len] gets no copy and nothing changes.  A
    class below [max_len] whose train directory lists no file makes
    [random.choice] raise [IndexError] before anything is copied. *)
Theorem oversample_class_edge_cases (R : rng) (output class_dir : path)
    (max_len length : Z) (w : world R) :
  let train_dir := Path.join3 output "train" (snd (Path.split class_dir)) in
  (max_len <= length ->
   oversample_class R output max_len (length, class_dir) w = (Ok tt, w))
  /\ (length < max_len -> listing R train_dir w = [] ->
      oversample_class R output max_len (length, class_dir) w
      = (Raise (IndexError "Cannot choose from an empty sequence"), w)).
Proof.
  intros train_dir. unfold oversample_class, bind. rewrite list_files_listing.
  fold train_dir. unfold Py.range. split.
  - intros Hle. by replace (Z.to_nat (max_len - length)) with 0%nat by lia.
  - intros Hlt Hempty. rewrite Hempty.
    destruct (Z.to_nat (max_len - length)) as [|n] eqn:Hn; [lia|].
    reflexivity.
Qed.

(** X1.  An input directory without class directories.  When
    [list_dirs] returns the empty list (the input is there and holds no
    directory), [ratio] (called with
    arguments that pass its two assertions) returns without touching
    the file system, in copy mode and in move mode; [fixed] does the
    same without oversampling, and with oversampling it raises the
    error of [max] on an empty sequence, the file system untouched. *)
Theorem no_class_directories (R : rng) (input output : path) (seed : Z)
    (w : world R) :
  list_dirs R input w = (Ok [], w) ->
  (forall ratio_arg move max_workers group_prefix,
     PyFloat.round5_is_one (PyFloat.sum ratio_arg) = true ->
     (length ratio_arg = 2 \/ length ratio_arg = 3)%nat ->
     ratio R input output seed ratio_arg move max_workers group_prefix w
     = (Ok tt, w))
  /\ (forall kind l oversample group_prefix,
        (length l = 1 \/ length l = 2)%nat ->
        fixed R input output seed (FixedSeq kind l) oversample group_prefix w
        = (if oversample then Raise EmptyMaxError else Ok tt, w)).
Proof.
  intros Hdirs. split.
  - intros ratio_arg move max_workers group_prefix Hsum Hlen. unfold ratio.
    rewrite Hsum. cbn [negb].
    rewrite (bool_decide_eq_true_2 _ Hlen). cbn [negb].
    unfold bind. by rewrite Hdirs.
  - intros kind l oversample group_prefix Hlen. unfold fixed.
    rewrite (bool_decide_eq_true_2 _ Hlen). cbn [negb].
    unfold bind at 1. rewrite Hdirs. cbn [collect_lens].
    by destruct oversample.
Qed.

Lemma no_class_directories_witness :
  list_dirs lcg "data/" (dataset lcg "data" []) = (Ok [], dataset lcg "data" [])
  /\ fixed lcg "data/" "output" 1337 (FixedSeq PyTuple [100; 100]) true None
       (dataset lcg "data" [])
     = (Raise EmptyMaxError, dataset lcg "data" []).
Proof.
  assert (H : list_dirs lcg "data/" (dataset lcg "data" [])
              = (Ok [], dataset lcg "data" [])) by reflexivity.
  split; [exact H|].
  apply (proj2 (no_class_directories lcg "data/" "output" 1337
                  (dataset lcg "data" []) H) PyTuple [100; 100] true None).
  right. reflexivity.
Defined.

(** X7.  A group size below one is never accepted: on a listing that
    is not empty, [group_by_prefix] raises a [ValueError] for every
    [len_pairs <= 0]. *)
Theorem group_by_prefix_nonpositive (files : list path) (len_pairs : Z) :
  files ≠ [] -> len_pairs <= 0 ->
  exists msg, group_by_prefix files len_pairs = Raise (ValueError msg).
Proof.
  intros Hne Hk. destruct files as [|f files]; [done|].
  unfold group_by_prefix. cbn [group_loop].
  destruct (decide (Path.name f ∈ (∅ : gset string))) as [Hin|_]; [set_solver|].
  destruct (String.length (Path.name f)) as [|n]; cbn [find_matches]; [eauto|].
  destruct (Z.eqb_spec (Z.of_nat (length (matches (f :: files) ∅ f (Path.name f))))
              (len_pairs - 1)); [lia|].
  destruct (Z.ltb_spec (Z.of_nat (length (matches (f :: files) ∅ f (Path.name f))))
              (len_pairs - 1)); [lia|].
  eauto.
Qed.

Lemma group_by_prefix_nonpositive_witness :
  ["a.jpg"; "b.jpg"] ≠ [] /\ 0 <= 0
  /\ exists msg, group_by_prefix ["a.jpg"; "b.jpg"] 0 = Raise (ValueError msg).
Proof.
  split; [discriminate|]. split; [lia|].
  apply (group_by_prefix_nonpositive ["a.jpg"; "b.jpg"] 0); [discriminate|lia].
Defined.

Lemma split_files_partition_witness :
  (Py.bound 10 2 < Py.bound 10 5)%nat
  /\ length (concat (split_files ten_files 5 2 true).*1) = 13%nat.
Proof.
  assert (H : (Py.bound 10 2 < Py.bound 10 5)%nat) by (vm_compute; lia).
  split; [exact H|].
  exact (proj2 (proj2 (split_files_partition ten_files 5 2)) H).
Defined.

Lemma oversample_class_edge_cases_witness :
  3 <= 3
  /\ oversample_class lcg "output" 3 (3, "data/small") (small_and_big lcg)
     = (Ok tt, small_and_big lcg).
Proof.
  assert (H : 3 <= 3) by lia.
  split; [exact H|].
  exact (proj1 (oversample_class_edge_cases lcg "output" "data/small" 3 3
                  (small_and_big lcg)) H).
Defined.
(** ** A pair of files under [group_by_prefix] *)

Lemma prefix_drop_last (s t : string) :
  String.prefix s t = true -> String.prefix (Py.drop_last s) t = true.
Proof.
  revert t. induction s as [|a s IH]; intros t Hp; [done|].
  destruct s as [|b s]; [by destruct t|].
  change (Py.drop_last (String a (String b s)))
    with (String a (Py.drop_last (String b s))).
  destruct t as [|c t]; [done|]. cbn [String.prefix] in *.
  destruct (ascii_dec a c); [|done]. by apply IH.
Qed.

Section Pair.
Context (f1 f2 : path).
Hypothesis names_differ : Path.name f1 ≠ Path.name f2.

Lemma matches_pair (s : string) :
  matches [f1; f2] ∅ f1 s
  = if String.prefix s (Path.name f2) then [f2] else [].
Proof.
  unfold matches. rewrite filter_cons_False by tauto.
  unfold Py.startswith.
  destruct (String.prefix s (Path.name f2)) eqn:Hp.
  - rewrite filter_cons_True; [done|]. split; [set_solver|done].
  - rewrite filter_cons_False; [done|]. intros (_ & ? & _). congruence.
Qed.

(** The search for the partner of [f1]: from any non-empty prefix [s]
    of its name, with one iteration per character of [s], when the
    first character of [s] also starts the name of [f2]. *)
Lemma find_matches_pair (c : ascii) (r2 : string) (s : string) :
  Path.name f2 = String c r2 ->
  (exists r, s = String c r) ->
  find_matches [f1; f2] 2 ∅ f1 (String.length s) s = Ok [f2].
Proof.
  intros Hn2. remember (String.length s) as n eqn:Hn. revert s Hn.
  induction n as [|n IH]; intros s Hn [r ->]; [done|].
  cbn [find_matches]. rewrite matches_pair.
  destruct (String.prefix (String c r) (Path.name f2)) eqn:Hp; [done|].
  cbn [length]. cbn [Z.of_nat Z.eqb Z.sub Z.add Z.opp Z.pos_sub Z.ltb Z.compare].
  destruct r as [|b r].
  - exfalso. rewrite Hn2 in Hp. cbn [String.prefix] in Hp.
    by destruct (ascii_dec c c), r2.
  - change (Py.drop_last (String c (String b r)))
      with (String c (Py.drop_last (String b r))).
    apply IH; [|eauto].
    cbn [String.length] in Hn. injection Hn as ->.
    cbn [String.length]. f_equal.
    pose proof (drop_last_length (String b r) ltac:(done)) as Hl.
    cbn [String.length] in Hl. lia.
Qed.

Lemma group_by_prefix_pair_ordered (c : ascii) (r1 r2 : string) :
  Path.name f1 = String c r1 -> Path.name f2 = String c r2 ->
  group_by_prefix [f1; f2] 2 = Ok [[f1; f2]].
Proof.
  intros Hn1 Hn2. unfold group_by_prefix. cbn [group_loop].
  destruct (decide (Path.name f1 ∈ (∅ : gset string))) as [Hin|_]; [set_solver|].
  rewrite (find_matches_pair c r2 (Path.name f1) Hn2) by eauto.
  cbn [fmap list_fmap app].
  destruct (decide (Path.name f2 ∈ _)) as [_|Hnin]; [|set_solver].
  assert (Hsize : size ((∅ : gset string)
                        ∪ list_to_set [Path.name f1; Path.name f2]) = 2%nat).
  { cbn [list_to_set]. rewrite union_empty_l_L, union_empty_r_L.
    rewrite size_union by set_solver. by rewrite !size_singleton. }
  rewrite Hsize. cbn [length]. by destruct (decide (2%nat ≠ 2%nat)).
Qed.

End Pair.

(** X6.  Inside a group the files keep the order of the listing.  For
    two files whose names differ and begin with the same character,
    [group_by_prefix] at group size 2 returns the one group, the file
    listed first in front: the two listing orders give two different
    tuples. *)
Theorem group_of_two_follows_listing_order (f1 f2 : path) (c : ascii)
    (r1 r2 : string) :
  Path.name f1 = String c r1 -> Path.name f2 = String c r2 ->
  Path.name f1 ≠ Path.name f2 ->
  group_by_prefix [f1; f2] 2 = Ok [[f1; f2]]
  /\ group_by_prefix [f2; f1] 2 = Ok [[f2; f1]].
Proof.
  intros Hn1 Hn2 Hne. split.
  - by apply (group_by_prefix_pair_ordered f1 f2 Hne c r1 r2).
  - by apply (group_by_prefix_pair_ordered f2 f1 (not_eq_sym Hne) c r2 r1).
Qed.

Lemma group_of_two_follows_listing_order_witness :
  group_by_prefix ["d/img1_a.jpg"; "d/img1_b.jpg"] 2
  = Ok [["d/img1_a.jpg"; "d/img1_b.jpg"]]
  /\ group_by_prefix ["d/img1_b.jpg"; "d/img1_a.jpg"] 2
     = Ok [["d/img1_b.jpg"; "d/img1_a.jpg"]].
Proof.
  apply (group_of_two_follows_listing_order "d/img1_a.jpg" "d/img1_b.jpg"
           "i"%char "mg1_a.jpg" "mg1_b.jpg"); [reflexivity|reflexivity|].
  vm_compute. discriminate.
Defined.
(** ** What [setup_files] returns *)

(** X2.  [setup_files] without a group prefix never raises.  It
    returns a permutation of the listing of the class directory, every
    entry one file of the file system that lies below the class
    directory; the directories, the files and the calls logged are as
    before, the state of the generator alone has changed. *)
Theorem setup_files_without_grouping (R : rng) (class_dir : path) (seed : Z)
    (w : world R) :
  exists files st',
    setup_files R class_dir seed None w
    = (Ok files, World (w_dirs w) (w_files w) st' (w_trace w) (w_late w))
    /\ files ≡ₚ Single <$> listing R class_dir w
    /\ Forall (fun e => exists p,
                 e = Single p /\ p ∈ w_files w
                 /\ Py.startswith p (Path.join class_dir "") = true) files.
Proof.
  destruct (setup_files_ungrouped R class_dir seed w) as (files & st' & Heq & _ & Hp).
  exists files, st'. split; [done|]. split; [done|].
  rewrite Hp. apply Forall_fmap, Forall_forall. intros p Hin.
  exists p. split; [done|].
  unfold listing in Hin. apply list_elem_of_filter in Hin. tauto.
Qed.

(** X3.  Without a group prefix the sequence returned by
    [setup_files] depends neither on the order in which the file system
    lists the files nor on the state of the generator before the call:
    two worlds that hold the same files give the same shuffled sequence
    for the same seed (the listing is sorted and the generator seeded
    before the shuffle). *)
Theorem setup_files_same_files_same_order (R : rng) (class_dir : path)
    (seed : Z) (w1 w2 : world R) :
  w_files w1 ≡ₚ w_files w2 ->
  fst (setup_files R class_dir seed None w1)
  = fst (setup_files R class_dir seed None w2).
Proof. intros Hp. by apply setup_files_order_independent. Qed.

Lemma setup_files_same_files_same_order_witness :
  w_files (listed_a1_last lcg) ≡ₚ w_files (listed_a9_first lcg)
  /\ fst (setup_files lcg "data/c" 1337 None (listed_a1_last lcg))
     = fst (setup_files lcg "data/c" 1337 None (listed_a9_first lcg)).
Proof.
  assert (H : w_files (listed_a1_last lcg) ≡ₚ w_files (listed_a9_first lcg))
    by (vm_compute; apply perm_skip, perm_skip, perm_swap).
  split; [exact H|].
  exact (setup_files_same_files_same_order lcg "data/c" 1337 _ _ H).
Defined.
(** ** Copy mode only creates *)

Section Adding.
Context (R : rng).

Lemma only_adds_same (w w' : world R) :
  w_dirs w' = w_dirs w -> w_files w' = w_files w -> w_trace w' = w_trace w ->
  only_adds w w'.
Proof.
  intros Hd Hf Ht. unfold only_adds. rewrite Hd, Hf, Ht.
  split; [done|]. split; [done|]. exists []. by rewrite app_nil_r.
Qed.

Lemma only_adds_refl (w : world R) : only_adds w w.
Proof. by apply only_adds_same. Qed.

Lemma only_adds_trans (w1 w2 w3 : world R) :
  only_adds w1 w2 -> only_adds w2 w3 -> only_adds w1 w3.
Proof.
  intros (Hd1 & Hf1 & t1 & Ht1 & Hm1) (Hd2 & Hf2 & t2 & Ht2 & Hm2).
  split; [by etrans|]. split; [by etrans|].
  exists (t1 ++ t2). split; [by rewrite Ht2, Ht1, app_assoc|].
  by apply Forall_app.
Qed.

Lemma adding_ret {A} (a : A) : adding (ret R a).
Proof. intros w. apply only_adds_refl. Qed.

Lemma adding_raise {A} (e : exn) : adding (@raise R A e).
Proof. intros w. apply only_adds_refl. Qed.

Lemma adding_lift {A} (r : result A) : adding (lift R r).
Proof. intros w. apply only_adds_refl. Qed.

Lemma adding_bind {A B} (m : M R A) (k : A -> M R B) :
  adding m -> (forall a, adding (k a)) -> adding (bind R m k).
Proof.
  intros Hm Hk w. unfold bind. specialize (Hm w).
  destruct (m w) as [[a|e] w']; cbn [snd] in *; [|done].
  eapply only_adds_trans; [exact Hm|apply Hk].
Qed.

Lemma adding_for_each {A} (l : list A) (body : A -> M R unit) :
  (forall a, adding (body a)) -> adding (for_each R l body).
Proof.
  intros Hb. induction l as [|x l IH]; cbn [for_each]; [apply adding_ret|].
  apply adding_bind; [apply Hb|by intros _].
Qed.

Lemma adding_makedirs (d : path) : adding (makedirs R d).
Proof.
  intros w. unfold makedirs, log, add_dirs. cbn.
  split; [by apply sublist_subseteq, sublist_inserts_r|]. split; [done|].
  exists [Mkdir d]. split; [done|]. by repeat constructor.
Qed.

Lemma adding_copy2 (src dst : path) : adding (copy2 R src dst).
Proof.
  intros w. unfold copy2.
  destruct (negb (isfile R src w)); [apply only_adds_refl|].
  destruct (String.eqb src _); [apply only_adds_refl|].
  unfold log, add_file. cbn. split; [done|]. split.
  - destruct (isfile R _ w); [done|].
    by apply sublist_subseteq, sublist_inserts_r.
  - eexists [_]. split; [done|]. by repeat constructor.
Qed.

Lemma adding_shuffle {A} (x : list A) : adding (shuffle R x).
Proof.
  intros w. unfold shuffle.
  destruct (shuffle_from R (length x - 1) x (w_rng w)) as [x' st'].
  by apply only_adds_same.
Qed.

Lemma adding_choice {A} (seq : list A) : adding (choice R seq).
Proof.
  intros w. unfold choice. destruct seq as [|a seq]; [apply only_adds_refl|].
  destruct (rng_below R _ _) as [i st'].
  destruct (_ !! i); by apply only_adds_same.
Qed.

Lemma adding_setup_files (class_dir : path) (seed : Z) (gp : option Z) :
  adding (setup_files R class_dir seed gp).
Proof.
  unfold setup_files. apply adding_bind; [by intros w; apply only_adds_same|].
  intros _. apply adding_bind; [intros w; apply only_adds_refl|].
  intros files. destruct gp as [k|]; [|apply adding_shuffle].
  apply adding_bind; [apply adding_lift|]. intros groups. apply adding_shuffle.
Qed.

Lemma adding_tuple_loop (transfer : path -> M R unit) (fuel i : nat)
    (files : list entry) :
  (forall x, adding (transfer x)) -> adding (tuple_loop R fuel transfer i files).
Proof.
  intros Ht. revert i files.
  induction fuel as [|fuel IH]; intros i files; cbn [tuple_loop];
    [apply adding_ret|].
  destruct (files !! i) as [[p|xs]|]; [apply IH| |apply adding_ret].
  apply adding_bind; [by apply adding_for_each|]. intros _. apply IH.
Qed.

Lemma adding__copy (f : entry) (class_name : string) (full_path : path) :
  adding (_copy R f class_name full_path).
Proof.
  destruct f as [p|ps]; cbn [_copy]; [|apply adding_raise].
  cbn zeta. destruct (negb _); [|apply adding_copy2].
  apply adding_bind; [apply adding_makedirs|]. intros _. apply adding_copy2.
Qed.

Lemma adding_run_late (worker : entry -> M R unit) (n : nat)
    (jobs : list entry) (w : world R) :
  (forall j, adding (worker j)) -> only_adds w (run_late R n worker jobs w).
Proof.
  intros Hw. revert jobs w.
  induction n as [|n IH]; intros [|j jobs] w; cbn [run_late];
    try apply only_adds_refl.
  eapply only_adds_trans; [apply Hw|apply IH].
Qed.

Lemma adding_run_jobs (worker : entry -> M R unit) (jobs : list entry) :
  (forall j, adding (worker j)) -> adding (run_jobs R worker jobs).
Proof.
  intros Hw. induction jobs as [|j jobs IH]; intros w; cbn [run_jobs];
    [apply only_adds_refl|].
  pose proof (Hw j w) as Hj.
  destruct (worker j w) as [[[]|e] w']; cbn [snd] in *.
  - eapply only_adds_trans; [exact Hj|apply IH].
  - eapply only_adds_trans; [exact Hj|by apply adding_run_late].
Qed.

Lemma adding_list_dirs (directory : path) : adding (list_dirs R directory).
Proof.
  intros w. unfold list_dirs. cbn zeta.
  destruct (isfile R _ w); [apply only_adds_refl|].
  destruct (negb _); apply only_adds_refl.
Qed.

Lemma adding_copy_files (li : plan) (class_dir output : path) (mw : nat) :
  adding (copy_files R li class_dir output mw).
Proof.
  unfold copy_files. apply adding_for_each. intros [files folder_type].
  apply adding_bind; [apply adding_makedirs|]. intros _.
  apply adding_bind.
  - apply adding_tuple_loop. intros x. apply adding_copy2.
  - intros left. apply adding_run_jobs. intros f. apply adding__copy.
Qed.

Lemma adding_collect_lens (dirs : list path) (body : path -> M R Z) :
  (forall d, adding (body d)) -> adding (collect_lens R dirs body).
Proof.
  intros Hb. induction dirs as [|d dirs IH]; cbn [collect_lens];
    [apply adding_ret|].
  apply adding_bind; [apply Hb|]. intros n.
  apply adding_bind; [apply IH|]. intros lens. apply adding_ret.
Qed.

Lemma adding_oversample_class (output : path) (max_len : Z)
    (length_dir : Z * path) :
  adding (oversample_class R output max_len length_dir).
Proof.
  destruct length_dir as [len class_dir]. unfold oversample_class.
  apply adding_bind; [intros w; apply only_adds_refl|]. intros train_files.
  apply adding_for_each. intros i. unfold duplicate.
  apply adding_bind; [apply adding_choice|]. intros f. apply adding_raise.
Qed.

End Adding.

(** X17.  Fixed mode only creates, oversampling included (it has no
    move mode).  For all arguments, and whether the run returns or
    raises: every directory and every file present before the run is
    present after it, and the calls made on the file system are
    [mkdir] and [copy2] calls, no [move]. *)
Theorem fixed_only_adds (R : rng) (input output : path) (seed : Z)
    (fx : fixed_arg) (oversample : bool) (group_prefix : option Z)
    (w : world R) :
  only_adds w (snd (fixed R input output seed fx oversample group_prefix w)).
Proof.
  revert w. change (adding (fixed R input output seed fx oversample group_prefix)).
  unfold fixed.
  destruct (match fx with FixedInt i => _ | FixedSeq kind l => _ end)
    as [kind l].
  destruct (negb _); [apply adding_raise|].
  apply adding_bind; [apply adding_list_dirs|]. intros dirs.
  apply adding_bind.
  - apply adding_collect_lens. intros d. unfold split_class_dir_fixed.
    apply adding_bind; [apply adding_setup_files|]. intros files.
    apply adding_bind; [apply adding_lift|]. intros li.
    apply adding_bind; [apply adding_copy_files|]. intros _. apply adding_ret.
  - intros lens. destruct (negb oversample); [apply adding_ret|].
    apply adding_bind; [apply adding_lift|]. intros max_len.
    apply adding_for_each. intros ld. apply adding_oversample_class.
Qed.

(** X16.  Ratio mode without [move] only creates.  For all arguments,
    and whether the run returns or raises: every directory and every
    file present before the run is present after it, and the calls
    made on the file system are [mkdir] and [copy2] calls, no
    [move]. *)
Theorem ratio_copy_only_adds (R : rng) (input output : path) (seed : Z)
    (r : list PyFloat.float) (max_workers : nat) (group_prefix : option Z)
    (w : world R) :
  only_adds w
    (snd (ratio R input output seed r false max_workers group_prefix w)).
Proof.
  revert w.
  change (adding (ratio R input output seed r false max_workers group_prefix)).
  unfold ratio.
  destruct (negb _); [apply adding_raise|].
  destruct (negb _); [apply adding_raise|].
  apply adding_bind; [apply adding_list_dirs|]. intros dirs.
  apply adding_for_each. intros d. unfold split_class_dir_ratio.
  apply adding_bind; [apply adding_setup_files|]. intros files.
  apply adding_bind; [apply adding_lift|]. intros li.
  apply adding_copy_files.
Qed.
(** ** A class in ratio mode, from the listing to the plan *)

(** X9.  One class in ratio mode without grouping, from the listing
    to the plan.  For a ratio of two or three binary64 fractions and
    fewer than 2^63 listed files, the plan is built (no exception); its
    subsets are named train, val and, for three ratios, test, in this
    order; together they hold the listed files, each as often as it is
    listed, so exactly once when the file system holds no path twice. *)
Theorem class_plan_assigns_every_file (R : rng) (class_dir : path) (seed : Z)
    (ratio : list PyFloat.float) (w : world R) :
  (length ratio = 2 \/ length ratio = 3)%nat ->
  Forall (fun r => PyFloat.is_fraction r = true) ratio ->
  Z.of_nat (length (listing R class_dir w)) < 2 ^ 63 ->
  exists li,
    class_plan R class_dir seed ratio None w = Ok li
    /\ li.*2 = take (length ratio) ["train"; "val"; "test"]
    /\ concat li.*1 ≡ₚ Single <$> listing R class_dir w
    /\ (NoDup (w_files w) -> NoDup (concat li.*1)).
Proof.
  intros Hlen Hfrac Hn. unfold class_plan.
  destruct (setup_files_ungrouped R class_dir seed w) as (files & st' & -> & _ & Hp).
  cbn [fst].
  assert (Hl : length files = length (listing R class_dir w))
    by (by rewrite Hp, length_fmap).
  destruct ratio as [|r0 [|r1 rest]]; [cbn in Hlen; lia..|].
  apply Forall_cons in Hfrac as [H0 Hfrac]. apply Forall_cons in Hfrac as [H1 _].
  destruct (FloatFacts.to_int_mul_fraction r0 (Z.of_nat (length files)) H0)
    as (z0 & Hi0 & _ & Hz0); [lia|].
  destruct (FloatFacts.to_int_mul_fraction r1 (Z.of_nat (length files)) H1)
    as (z1 & Hi1 & _ & Hz1); [lia|].
  eexists. split.
  { unfold ratio_plan, ratio_count, index. cbn [lookup list_lookup result_bind].
    rewrite Hi0, Hi1. cbn [result_bind].
    by rewrite split_files_nonneg by lia. }
  assert (Hcat : concat (plan_of_bounds files (Z.to_nat z0) (Z.to_nat (z0 + z1))
                   (bool_decide (length (r0 :: r1 :: rest) = 3%nat))).*1 = files)
    by (apply plan_of_bounds_concat; lia).
  split.
  { unfold plan_of_bounds. case_bool_decide as Hb.
    - by rewrite Hb.
    - destruct Hlen as [->|]; [done|by exfalso]. }
  rewrite Hcat. split; [done|].
  intros Hnd. rewrite Hp.
  assert (Hinj : Inj eq eq Single) by (by intros ?? [=]).
  apply (NoDup_fmap_2 Single).
  unfold listing. by apply NoDup_filter.
Qed.

Lemma class_plan_assigns_every_file_witness :
  let w := dataset lcg "data" [("c", numbered 10)] in
  exists li,
    class_plan lcg "data/c" 1337 ratio_811 None w = Ok li
    /\ li.*2 = take (length ratio_811) ["train"; "val"; "test"]
    /\ concat li.*1 ≡ₚ Single <$> listing lcg "data/c" w
    /\ (NoDup (w_files w) -> NoDup (concat li.*1)).
Proof.
  apply (class_plan_assigns_every_file lcg "data/c" 1337 ratio_811
           (dataset lcg "data" [("c", numbered 10)])).
  - right. reflexivity.
  - repeat (constructor; [vm_compute; reflexivity|]). constructor.
  - vm_compute. reflexivity.
Defined.

(** ** Fixed counts that are not positive *)

(** X10.  A negative count is not rejected in fixed mode: for a single
    count [c < 0] the check on the number of samples passes for every
    class, the whole sequence becomes the train subset and the val
    subset is empty. *)
Theorem fixed_plan_negative_count (class_dir : path) (files : list entry)
    (kind : seq_kind) (c : Z) :
  c < 0 ->
  fixed_plan class_dir files kind [c] = Ok [(files, "train"); ([], "val")].
Proof.
  intros Hc. unfold fixed_plan.
  replace (Py.sum [c]) with c by (unfold Py.sum; cbn; lia).
  destruct (Z.gtb_spec (Z.of_nat (length files)) c) as [_|]; [|lia].
  cbn [negb index lookup list_lookup result_bind].
  rewrite split_files_nonneg by lia.
  unfold plan_of_bounds. cbn [length].
  case_bool_decide; [done|]. unfold segment. rewrite drop_0.
  rewrite take_ge by lia. rewrite drop_ge; [done|].
  rewrite length_take. lia.
Qed.

Lemma fixed_plan_negative_count_witness :
  -3 < 0
  /\ fixed_plan "data/c" ten_files PyList [-3]
     = Ok [(ten_files, "train"); ([], "val")].
Proof.
  assert (H : -3 < 0) by lia.
  split; [exact H|].
  exact (fixed_plan_negative_count "data/c" ten_files PyList (-3) H).
Defined.
(** ** Moving two files of the same name *)

Lemma rstrip_sep_length (s : string) :
  (String.length (Path.rstrip_sep s) <= String.length s)%nat.
Proof.
  induction s as [|a s IH]; [done|]. cbn [Path.rstrip_sep].
  destruct (Path.rstrip_sep s) as [|b r].
  - destruct (Ascii.eqb a Path.sep); cbn; lia.
  - cbn [String.length] in *. lia.
Qed.

Lemma dirname_length (p : path) :
  (String.length (Path.dirname p) <= String.length p)%nat.
Proof.
  unfold Path.dirname, Path.split.
  pose proof (rpartition_app Path.sep p) as Happ.
  destruct (Path.rpartition Path.sep p) as [h t]. cbn [fst snd] in *.
  assert (Hh : (String.length h <= String.length p)%nat)
    by (rewrite <- Happ, string_app_length; lia).
  destruct (_ && _); [|done].
  pose proof (rstrip_sep_length h). lia.
Qed.

Lemma ancestors_length (fuel : nat) (d x : path) :
  x ∈ ancestors fuel d -> (String.length x <= String.length d)%nat.
Proof.
  revert d. induction fuel as [|fuel IH]; intros d; cbn [ancestors];
    [by intros ?%elem_of_nil|].
  destruct (_ || _); [by intros ?%elem_of_nil|].
  intros [Hin|Hin]%elem_of_app.
  - specialize (IH _ Hin). pose proof (dirname_length d). lia.
  - apply list_elem_of_singleton in Hin as ->. lia.
Qed.

Lemma ancestors_self (d : path) :
  d ≠ "" -> Path.all_sep d = false ->
  d ∈ ancestors (String.length d) d.
Proof.
  intros Hne Hsep. destruct d as [|a d]; [done|].
  cbn [String.length ancestors]. rewrite Hsep. cbn [String.eqb orb].
  apply elem_of_app. right. by apply list_elem_of_singleton.
Qed.

Lemma join_basename_length (d f : path) :
  Path.basename f ≠ "" ->
  (String.length d < String.length (Path.join d (Path.basename f)))%nat.
Proof.
  intros Hne. unfold Path.join.
  destruct (Py.startswith (Path.basename f) "/") eqn:Hs.
  - apply startswith_app in Hs as [r Hr].
    pose proof (rpartition_tail_free Path.sep f) as Hfree.
    unfold Path.basename in Hr. rewrite Hr in Hfree. done.
  - assert (0 < String.length (Path.basename f))%nat
      by (destruct (Path.basename f); [done|cbn; lia]).
    destruct (_ || _); rewrite !string_app_length; lia.
Qed.

(** X15.  Move mode does not keep the path below the class directory
    (claim C8 is about this): a file is moved to
    [full_path/<file name>].  Two files of one subset that have the
    same name therefore collide: with one worker the first is moved,
    the move of the second raises [Destination path ... already
    exists], and nothing else has changed: the files are those from
    before without the first file, and its destination. *)
Theorem move_files_same_name_collides (R : rng) (f g : path)
    (folder_type class_dir output : path) (w : world R) :
  let full_path := Path.join3 output folder_type (snd (Path.split class_dir)) in
  let dst := Path.join full_path (Path.basename f) in
  full_path ≠ "" -> Path.all_sep full_path = false ->
  Path.basename f ≠ "" -> Path.basename g = Path.basename f ->
  f ∈ w_files w -> dst ∉ w_files w -> dst ∉ w_dirs w ->
  exists w',
    move_files R [([Single f; Single g], folder_type)] class_dir output 1 w
    = (Raise (ShutilError ("Destination path '" +:+ dst +:+ "' already exists")),
       w')
    /\ w_files w' = filter (fun x => x ≠ f) (w_files w) ++ [dst]
    /\ w_trace w' = w_trace w ++ [Mkdir full_path; Move f dst].
Proof.
  intros full_path dst Hne Hsep Hbf Hbg Hf Hdf Hdd.
  unfold move_files. cbn [for_each]. fold full_path.
  unfold bind at 1. unfold bind at 1. cbn [makedirs].
  set (w1 := log R (Mkdir full_path) _).
  assert (Hfiles1 : w_files w1 = w_files w) by done.
  assert (Hfull1 : full_path ∈ w_dirs w1).
  { cbn. destruct (decide (full_path ∈ w_dirs w)) as [Hin|Hnin].
    - apply elem_of_app. by left.
    - apply elem_of_app. right. apply list_elem_of_filter. split; [done|].
      by apply ancestors_self. }
  assert (Hdst1 : dst ∉ w_dirs w1).
  { cbn. intros [Hin|Hin]%elem_of_app; [done|].
    apply list_elem_of_filter in Hin as [_ Hin].
    apply ancestors_length in Hin.
    pose proof (join_basename_length full_path f Hbf) as Hlt.
    fold dst in Hlt. lia. }
  change [Single f; Single g] with (Single <$> [f; g]).
  unfold bind at 1. rewrite tuple_loop_singles.
  unfold thread_map. cbn [fmap list_fmap run_jobs _move].
  unfold move at 1. fold dst.
  unfold isdir, isfile. rewrite Hfiles1.
  rewrite (bool_decide_eq_true_2 _ Hfull1), (bool_decide_eq_false_2 _ Hdf),
    (bool_decide_eq_false_2 _ Hdst1), (bool_decide_eq_true_2 _ Hf).
  cbn [orb negb].
  set (w2 := log R (Move f dst) _).
  assert (Hfiles2 : w_files w2 = filter (fun x => x ≠ f) (w_files w) ++ [dst]).
  { cbn. unfold isfile. cbn. rewrite bool_decide_eq_false_2; [done|].
    intros Hin%list_elem_of_filter. tauto. }
  unfold move at 1. rewrite Hbg. fold dst.
  unfold isdir, isfile. rewrite Hfiles2.
  change (w_dirs w2) with (w_dirs w1).
  rewrite (bool_decide_eq_true_2 _ Hfull1).
  rewrite bool_decide_eq_true_2
    by (apply elem_of_app; right; by apply list_elem_of_singleton).
  cbn [orb]. rewrite run_late_nil. unfold bind.
  exists w2. split; [done|]. split; [done|].
  cbn. by rewrite <- app_assoc.
Qed.

Lemma move_files_same_name_collides_witness :
  let w := same_names lcg in
  exists w',
    move_files lcg [([Single "data/c/a/x.jpg"; Single "data/c/b/x.jpg"], "train")]
      "data/c" "output" 1 w
    = (Raise (ShutilError "Destination path 'output/train/c/x.jpg' already exists"),
       w')
    /\ w_files w' = filter (fun x => x ≠ "data/c/a/x.jpg") (w_files w)
                    ++ ["output/train/c/x.jpg"]
    /\ w_trace w' = w_trace w ++ [Mkdir "output/train/c";
                                  Move "data/c/a/x.jpg" "output/train/c/x.jpg"].
Proof.
  apply (move_files_same_name_collides lcg "data/c/a/x.jpg" "data/c/b/x.jpg"
           "train" "data/c" "output" (same_names lcg)).
  - by_computation.
  - reflexivity.
  - by_computation.
  - reflexivity.
  - by_computation.
  - by_computation.
  - by_computation.
Defined.

(** C8.  Move mode drops the path below the class directory.  The file
    [sub/c.jpg] of the class [cats]: [copy_files] makes
    [output/train/cats/sub] and copies the file into it;
    [move_files] moves it to [output/train/cats/c.jpg], and the source
    is gone. *)
Lemma move_files_flattens_nested_file :
  let w := nested lcg in
  let li := [([Single "data/cats/sub/c.jpg"], "train")] in
  let copied := copy_files lcg li "data/cats" "output" 1 w in
  let moved := move_files lcg li "data/cats" "output" 1 w in
  "data/cats/sub/c.jpg" ∈ listing lcg "data/cats" w
  /\ fst copied = Ok tt
  /\ w_trace (snd copied)
     = [Mkdir "output/train/cats"; Mkdir "output/train/cats/sub";
        Copy2 "data/cats/sub/c.jpg" "output/train/cats/sub/c.jpg"]
  /\ fst moved = Ok tt
  /\ w_trace (snd moved)
     = [Mkdir "output/train/cats";
        Move "data/cats/sub/c.jpg" "output/train/cats/c.jpg"]
  /\ bool_decide ("data/cats/sub/c.jpg" ∈ w_files (snd copied)) = true
  /\ bool_decide ("data/cats/sub/c.jpg" ∈ w_files (snd moved)) = false.
Proof.
  cbn zeta. split; [by_computation|].
  repeat split; vm_compute; reflexivity.
Qed.
